(** * demeanor: log-return z-scores and their comparison with the normal law

    A shallow embedding of [main.py] (the statistics pipeline) and of the
    [/analyze] handler of [app.py].

    Numbers.  The program computes on IEEE-754 binary64 values through
    numpy and pandas.  A [float64] is modelled as an extended real: a
    finite real, one of the two infinities, or NaN.  The special values
    are handled the way IEEE-754 prescribes (inf - inf, 0 * inf, 0 / 0
    and inf / inf are NaN; x / 0 is an infinity for x <> 0; log 0 is
    -inf; log and sqrt of a negative number are NaN; every comparison
    with NaN is false).  Arithmetic on finite values is exact: rounding,
    overflow and the sign of zero are not modelled.  What is stated of
    the program is therefore what does not hang on the last bit of a
    finite result: which formula is evaluated, the special values, the
    comparisons, the shape of the frames, and bounds that rounding
    keeps. *)

From Stdlib Require Import Reals Lra Lia ZArith.
From stdpp Require Import gmap strings list fin_maps.

Open Scope R_scope.

(** ** float64 *)

Inductive float64 : Type :=
  | Fin (x : R)
  | PInf
  | NInf
  | NaN.

Definition isnan (a : float64) : bool :=
  match a with NaN => true | _ => false end.

Definition notna (a : float64) : bool := negb (isnan a).

Definition is_finite (a : float64) : Prop :=
  match a with Fin _ => True | _ => False end.

(** The infinity that carries the sign of [x], NaN when [x = 0]. *)
Definition inf_of_sign (x : R) : float64 :=
  if Rlt_dec 0 x then PInf else if Rlt_dec x 0 then NInf else NaN.

Definition fneg (a : float64) : float64 :=
  match a with
  | Fin x => Fin (- x)
  | PInf => NInf
  | NInf => PInf
  | NaN => NaN
  end.

Definition fadd (a b : float64) : float64 :=
  match a, b with
  | NaN, _ | _, NaN => NaN
  | Fin x, Fin y => Fin (x + y)
  | PInf, NInf | NInf, PInf => NaN
  | PInf, _ | _, PInf => PInf
  | NInf, _ | _, NInf => NInf
  end.

Definition fsub (a b : float64) : float64 := fadd a (fneg b).

Definition fmul (a b : float64) : float64 :=
  match a, b with
  | NaN, _ | _, NaN => NaN
  | Fin x, Fin y => Fin (x * y)
  | Fin x, PInf | PInf, Fin x => inf_of_sign x
  | Fin x, NInf | NInf, Fin x => inf_of_sign (- x)
  | PInf, PInf | NInf, NInf => PInf
  | PInf, NInf | NInf, PInf => NInf
  end.

Definition fdiv (a b : float64) : float64 :=
  match a, b with
  | NaN, _ | _, NaN => NaN
  | Fin x, Fin y => if Req_dec_T y 0 then inf_of_sign x else Fin (x / y)
  | Fin _, _ => Fin 0
  | PInf, Fin y => if Rlt_dec y 0 then NInf else PInf
  | NInf, Fin y => if Rlt_dec y 0 then PInf else NInf
  | _, _ => NaN
  end.

Definition fabs (a : float64) : float64 :=
  match a with
  | Fin x => Fin (Rabs x)
  | PInf | NInf => PInf
  | NaN => NaN
  end.

(** [np.log] *)
Definition np_log1 (a : float64) : float64 :=
  match a with
  | Fin x => if Rlt_dec 0 x then Fin (ln x)
             else if Rlt_dec x 0 then NaN else NInf
  | PInf => PInf
  | NInf | NaN => NaN
  end.

Definition fsqrt (a : float64) : float64 :=
  match a with
  | Fin x => if Rlt_dec x 0 then NaN else Fin (sqrt x)
  | PInf => PInf
  | NInf | NaN => NaN
  end.

(** [a > b] *)
Definition fgt (a b : float64) : bool :=
  match a, b with
  | NaN, _ | _, NaN => false
  | Fin x, Fin y => if Rlt_dec y x then true else false
  | PInf, PInf => false
  | PInf, _ => true
  | Fin _, NInf => true
  | _, _ => false
  end.

Definition of_int (n : Z) : float64 := Fin (IZR n).

(** ** Exceptions *)

(** The exceptions the modelled code can raise.  [KeyError] is what
    [df[name]] raises for a column that is absent; [Unbound] stands for
    the use of a reference that denotes no object, which no run of the
    program reaches; [Exception] is any exception raised by a
    collaborator. *)
Inductive exn : Type :=
  | KeyError (key : string)
  | Unbound (ref : positive)
  | Exception (msg : string).

Inductive result (A : Type) : Type :=
  | Ok (a : A)
  | Raise (e : exn).
Arguments Ok {A} a.
Arguments Raise {A} e.

#[global] Instance result_ret : MRet result := fun A a => Ok a.
#[global] Instance result_bind : MBind result := fun A B k c =>
  match c with
  | Ok a => k a
  | Raise e => Raise e
  end.

Definition returns {A : Type} (c : result A) : Prop :=
  match c with Ok _ => True | Raise _ => False end.

(** ** pandas Series and DataFrame *)

(** A Series is the list of its values, in index order.  Every Series of
    the pipeline is taken from, and assigned back to, one frame, so the
    index alignment pandas performs is positional here. *)

(** [s.shift(1)] *)
Definition shift1 (s : list float64) : list float64 :=
  take (length s) (NaN :: s).

(** [np.log(s)] *)
Definition np_log (s : list float64) : list float64 := map np_log1 s.

(** [a - b] on two Series *)
Definition series_sub (a b : list float64) : list float64 :=
  zip_with fsub a b.

(** The sum of the entries.  With exact finite arithmetic the order of
    the additions does not matter; a NaN entry, or infinities of both
    signs, make the sum NaN. *)
Definition fsum (s : list float64) : float64 := foldr fadd (Fin 0) s.

(** The entries a pandas reduction looks at ([skipna=True]). *)
Definition valid (s : list float64) : list float64 := List.filter notna s.

(** [s.mean()]: the sum of the entries that are not NaN, divided by
    their number; NaN when there is none. *)
Definition series_mean (s : list float64) : float64 :=
  let v := valid s in
  match length v with
  | O => NaN
  | S _ => fdiv (fsum v) (Fin (INR (length v)))
  end.

(** [s.std()], with pandas' default [ddof=1]: the square root of the
    sum of the squared deviations from the mean, divided by the number
    of entries minus one, over the entries that are not NaN; NaN when
    there are fewer than two. *)
Definition series_std (s : list float64) : float64 :=
  let v := valid s in
  let count := length v in
  if (count <=? 1)%nat then NaN
  else
    let avg := fdiv (fsum v) (Fin (INR count)) in
    let sqr := map (fun x => fmul (fsub avg x) (fsub avg x)) v in
    fsqrt (fdiv (fsum sqr) (Fin (INR count - 1))).

(** [s.abs()] *)
Definition series_abs (s : list float64) : list float64 := map fabs s.

Definition date : Type := Z.

Record DataFrame : Type := {
  index : list date;
  columns : list (string * list float64)
}.

(** [df[name]] *)
Fixpoint lookup_column (name : string) (cols : list (string * list float64))
  : option (list float64) :=
  match cols with
  | [] => None
  | (k, v) :: rest => if String.eqb k name then Some v else lookup_column name rest
  end.

Definition getitem (df : DataFrame) (name : string) : result (list float64) :=
  match lookup_column name (columns df) with
  | Some s => Ok s
  | None => Raise (KeyError name)
  end.

(** [df[name] = s]: the column is replaced where it stands, or appended. *)
Fixpoint assign_column (name : string) (s : list float64)
  (cols : list (string * list float64)) : list (string * list float64) :=
  match cols with
  | [] => [(name, s)]
  | (k, v) :: rest =>
      if String.eqb k name then (k, s) :: rest
      else (k, v) :: assign_column name s rest
  end.

Definition setitem (df : DataFrame) (name : string) (s : list float64)
  : DataFrame :=
  {| index := index df; columns := assign_column name s (columns df) |}.

(** The entries of [l] at the positions where [mask] is true. *)
Fixpoint keep {A : Type} (mask : list bool) (l : list A) : list A :=
  match mask, l with
  | true :: m, x :: l' => x :: keep m l'
  | false :: m, _ :: l' => keep m l'
  | _, _ => []
  end.

(** One flag per row: no column holds NaN there. *)
Definition row_mask (df : DataFrame) : list bool :=
  foldr (fun c acc => zip_with andb (map notna c.2) acc)
        (repeat true (length (index df))) (columns df).

(** [df.dropna()] *)
Definition dropna (df : DataFrame) : DataFrame :=
  let mask := row_mask df in
  {| index := keep mask (index df);
     columns := map (fun c => (c.1, keep mask c.2)) (columns df) |}.

(** ** main.py *)

(** What [fetch_historical_price_data] returns, [df[["Close"]].copy()]:
    a frame with the one column Close. *)
Definition price_frame (dates : list date) (close : list float64) : DataFrame :=
  {| index := dates; columns := [("Close"%string, close)] |}.

(** The value the frame has after [df["Delta"] = ...]; the function
    returns the frame it was given (see [compute_daily_price_change_ref]
    for the object). *)
Definition compute_daily_price_change (df : DataFrame) : result DataFrame :=
  close ← getitem df "Close";
  Ok (setitem df "Delta" (series_sub (np_log close) (np_log (shift1 close)))).

(** [(s - s.mean()) / s.std()]: both scalars are broadcast over [s]. *)
Definition z_score (s : list float64) : list float64 :=
  let m := series_mean s in
  let sd := series_std s in
  map (fun x => fdiv (fsub x m) sd) s.

(** Lines 150-156 of [main], the body of the loop for one ticker:
    returns, [dropna], z-scores.  The result is the frame that is then
    written out, plotted and handed to [compute_distribution_stats]. *)
Definition main_z_scores (df : DataFrame) : result DataFrame :=
  df ← compute_daily_price_change df;
  let df := dropna df in
  delta ← getitem df "Delta";
  Ok (setitem df "Z-Score" (z_score delta)).

(** *** The standard normal law, [scipy.stats.norm] *)

Definition norm_pdf (t : R) : R := exp (- (t * t) / 2) / sqrt (2 * PI).

Lemma norm_pdf_continuity : continuity norm_pdf.
Proof. unfold norm_pdf. reg. Qed.

Definition integrable_of_continuity (f : R -> R) (Hf : continuity f) (a b : R)
  : Riemann_integrable f a b :=
  match Rle_dec a b with
  | left Hab => continuity_implies_RiemannInt Hab (fun x _ => Hf x)
  | right Hba =>
      RiemannInt_P1
        (continuity_implies_RiemannInt
           (Rlt_le _ _ (Rnot_le_lt _ _ Hba)) (fun x _ => Hf x))
  end.

(** [st.norm.cdf]: one half plus the integral of the density from 0. *)
Definition norm_cdf (x : R) : R :=
  1 / 2 + RiemannInt (integrable_of_continuity norm_pdf norm_pdf_continuity 0 x).

(** *** compute_distribution_stats *)

(** The function prints one line per threshold; a [stats_row] holds the
    values that line formats. *)
Record stats_row : Type := {
  threshold : Z;
  observed_count : Z;
  observed_pct : float64;
  expected_count : float64;
  expected_pct : float64;
  diff_count : float64;
  diff_pct : float64
}.

Definition thresholds : list Z := [1; 2; 3; 4; 5; 6; 7; 8; 9; 10]%Z.

(** [.sum()] of a Series of booleans *)
Definition sum_true (bs : list bool) : Z :=
  foldr (fun b acc => (Z.b2z b + acc)%Z) 0%Z bs.

(** [(z_scores.abs() > threshold).sum()] *)
Definition count_above (z_scores : list float64) (threshold : Z) : Z :=
  sum_true (map (fun a => fgt a (of_int threshold)) (series_abs z_scores)).

(** One turn of the loop over [thresholds]. *)
Definition stats_for (z_scores : list float64) (threshold : Z) : stats_row :=
  let total_days := Z.of_nat (length z_scores) in
  let observed_count := count_above z_scores threshold in
  let observed_pct :=
    fmul (fdiv (of_int observed_count) (of_int total_days)) (Fin 100) in
  let expected_prob :=
    fmul (Fin 2) (fsub (Fin 1) (Fin (norm_cdf (IZR threshold)))) in
  let expected_count := fmul expected_prob (of_int total_days) in
  let expected_pct := fmul expected_prob (Fin 100) in
  let diff_count := fsub (of_int observed_count) expected_count in
  let diff_pct := fsub observed_pct expected_pct in
  {| threshold := threshold;
     observed_count := observed_count;
     observed_pct := observed_pct;
     expected_count := expected_count;
     expected_pct := expected_pct;
     diff_count := diff_count;
     diff_pct := diff_pct |}.

Definition compute_distribution_stats (z_scores : list float64)
  : list stats_row :=
  map (stats_for z_scores) thresholds.

(** *** Frames as objects *)

(** A DataFrame is a mutable object and a Python variable holds a
    reference to it.  The store maps references to frames;
    [df["Delta"] = ...] updates the frame its reference denotes, while
    [df.dropna()] allocates a new one. *)

Definition deref (a : positive) (σ : gmap positive DataFrame)
  : result DataFrame :=
  match σ !! a with
  | Some df => Ok df
  | None => Raise (Unbound a)
  end.

(** [compute_daily_price_change(df)]: assigns the column on the frame it
    is given and returns that same reference. *)
Definition compute_daily_price_change_ref
  (a : positive) (σ : gmap positive DataFrame)
  : result (positive * gmap positive DataFrame) :=
  df ← deref a σ;
  df' ← compute_daily_price_change df;
  Ok (a, <[a := df']> σ).

(** [df.dropna()]: the result is a new frame. *)
Definition dropna_ref (a : positive) (σ : gmap positive DataFrame)
  : result (positive * gmap positive DataFrame) :=
  df ← deref a σ;
  let b := fresh (dom σ) in
  Ok (b, <[b := dropna df]> σ).

(** [df[name] = s] *)
Definition setitem_ref (a : positive) (name : string) (s : list float64)
  (σ : gmap positive DataFrame)
  : result (positive * gmap positive DataFrame) :=
  df ← deref a σ;
  Ok (a, <[a := setitem df name s]> σ).

(** Lines 150-156 of [main], on references. *)
Definition main_z_scores_ref (a : positive) (σ : gmap positive DataFrame)
  : result (positive * gmap positive DataFrame) :=
  r1 ← compute_daily_price_change_ref a σ;
  r2 ← dropna_ref r1.1 r1.2;
  df ← deref r2.1 r2.2;
  delta ← getitem df "Delta";
  setitem_ref r2.1 "Z-Score" (z_score delta) r2.2.

(** ** app.py *)

Definition TICKERS : gmap string string :=
  list_to_map
    [("DJIA", "^DJI"); ("SP500", "^GSPC");
     ("NASDAQ", "^IXIC"); ("NIFTY50", "^NSEI")]%string.

Record response : Type := {
  body : string;
  status : Z
}.

(** [index_name in TICKERS] *)
Definition in_TICKERS (name : string) : bool :=
  bool_decide (is_Some (TICKERS !! name)).

Definition invalid_index : response :=
  {| body := "Invalid index selected"; status := 400 |}.

Section App.

(** [analyze_index_for_web] is imported from [main] and
    [render_template] from Flask; the handler only calls them. *)
Variable analysis : Type.
Variable analyze_index_for_web : string -> result analysis.
Variable render_results : analysis -> string.

(** The handler of [POST /analyze].  [form] holds the fields of the
    request, and [request.form.get("index")] is [None] for a field that
    is absent; [not index_name] holds of [None] and of the empty
    string.  The first component of the outcome lists the calls made to
    [analyze_index_for_web]; the second is the response, or the
    exception that leaves the handler. *)
Definition analyze (form : gmap string string)
  : list string * result response :=
  match form !! "index"%string with
  | None => ([], Ok invalid_index)
  | Some index_name =>
      if String.eqb index_name "" || negb (in_TICKERS index_name) then
        ([], Ok invalid_index)
      else
        ([index_name],
         result ← analyze_index_for_web index_name;
         Ok {| body := render_results result; status := 200 |})
  end.

End App.

(** ** Files, downloads and printed reports *)

(** What the program reads and writes outside its frames: the files, by
    path; the downloads asked of the provider, as (ticker, period), in
    order; and the reports [compute_distribution_stats] has printed, by
    ticker name, in order. *)
Record world : Type := {
  files : gmap string string;
  downloads : list (string * string);
  reports : list (string * list stats_row)
}.

Definition write_file (path text : string) (w : world) : world :=
  {| files := <[path := text]> (files w);
     downloads := downloads w;
     reports := reports w |}.

Definition log_download (ticker period : string) (w : world) : world :=
  {| files := files w;
     downloads := downloads w ++ [(ticker, period)];
     reports := reports w |}.

Definition print_report (ticker_name : string) (rows : list stats_row)
  (w : world) : world :=
  {| files := files w;
     downloads := downloads w;
     reports := reports w ++ [(ticker_name, rows)] |}.

(** No file, nothing downloaded, nothing printed. *)
Definition empty_world : world :=
  {| files := ∅; downloads := []; reports := [] |}.

(** [TICKERS.items()], in the order of the dict. *)
Definition TICKERS_items : list (string * string) :=
  [("DJIA", "^DJI"); ("SP500", "^GSPC");
   ("NASDAQ", "^IXIC"); ("NIFTY50", "^NSEI")]%string.

(** [df[["Close"]].copy()]: a new frame with the one column Close. *)
Definition select_Close (df : DataFrame) : result DataFrame :=
  close ← getitem df "Close";
  Ok (price_frame (index df) close).

Fixpoint contains_slash (s : string) : bool :=
  match s with
  | EmptyString => false
  | String a rest =>
      String.eqb (String a EmptyString) "/" || contains_slash rest
  end.

(** The rule [/plot/<index_name>] takes Flask's default converter, which
    matches one path segment: at least one character, none of them a
    slash. *)
Definition plot_rule_matches (index_name : string) : bool :=
  negb (String.eqb index_name "") && negb (contains_slash index_name).

Section Run.

(** The collaborators: [yf.Ticker(ticker).history(period=period)],
    [DataFrame.to_csv] and [pd.read_csv] as texts, the bytes
    [plt.savefig] writes for a plot of the given index, z-scores and
    title, and the date [time.strftime('%Y-%m-%d')] gives during the
    run. *)
Variable history : string -> string -> result DataFrame.
Variable to_csv : DataFrame -> string.
Variable read_csv : string -> result DataFrame.
Variable savefig : list date -> list float64 -> string -> string.
Variable today : string.

(** The page the router answers, with status 404, to a URL that matches
    no rule. *)
Variable not_found_page : string.

(** [f"data/{ticker}-{period}.csv"] *)
Definition cache_file (ticker period : string) : string :=
  "data/" +:+ ticker +:+ "-" +:+ period +:+ ".csv".

(** An exception leaves the world as it is when it is raised, so the
    world is returned beside the outcome. *)
Definition fetch_historical_price_data (ticker period : string) (w : world)
  : world * result DataFrame :=
  match files w !! cache_file ticker period with
  | Some text => (w, df ← read_csv text; select_Close df)
  | None =>
      let w := log_download ticker period w in
      match history ticker period with
      | Raise e => (w, Raise e)
      | Ok df =>
          (write_file (cache_file ticker period) (to_csv df) w,
           select_Close df)
      end
  end.

(** [f"output/{ticker_name}/{time.strftime('%Y-%m-%d')}_z_scores.png"] *)
Definition plot_file (ticker_name : string) : string :=
  "output/" +:+ ticker_name +:+ "/" +:+ today +:+ "_z_scores.png".

(** [f"output/{ticker}/{time.strftime('%Y-%m-%d')}_analysis.csv"] *)
Definition analysis_file (ticker : string) : string :=
  "output/" +:+ ticker +:+ "/" +:+ today +:+ "_analysis.csv".

(** [plot_z_scores]: [df["Z-Score"]] is read when the curve is drawn,
    before the file is saved. *)
Definition plot_z_scores (df : DataFrame) (ticker_name : string) (w : world)
  : world * result unit :=
  match getitem df "Z-Score" with
  | Raise e => (w, Raise e)
  | Ok zs =>
      (write_file (plot_file ticker_name)
                  (savefig (index df) zs ticker_name) w,
       Ok tt)
  end.

(** The body of the loop of [main], for one entry of [TICKERS].  Of
    what it prints, the report of [compute_distribution_stats] is kept.
    The IndexError of [df.index[0]] on an empty frame is written
    [Exception "IndexError"].  Creating the directories, writing the
    two files and formatting the dates are taken to succeed: a turn is
    followed here on a file system that accepts the writes. *)
Definition main_ticker (ticker symbol : string) (w : world)
  : world * result unit :=
  let (w, fetched) := fetch_historical_price_data symbol "max" w in
  match fetched ≫= main_z_scores with
  | Raise e => (w, Raise e)
  | Ok df =>
      let w := write_file (analysis_file ticker) (to_csv df) w in
      let (w, plotted) := plot_z_scores df ticker w in
      match plotted with
      | Raise e => (w, Raise e)
      | Ok _ =>
          (* df.index[0], df.index[-1] *)
          match index df with
          | [] => (w, Raise (Exception "IndexError"))
          | _ :: _ =>
              match getitem df "Z-Score" with
              | Raise e => (w, Raise e)
              | Ok zs =>
                  (print_report ticker (compute_distribution_stats zs) w,
                   Ok tt)
              end
          end
      end
  end.

Fixpoint main_loop (items : list (string * string)) (w : world)
  : world * result unit :=
  match items with
  | [] => (w, Ok tt)
  | (ticker, symbol) :: rest =>
      let (w, done) := main_ticker ticker symbol w in
      match done with
      | Raise e => (w, Raise e)
      | Ok _ => main_loop rest w
      end
  end.

Definition main (w : world) : world * result unit :=
  main_loop TICKERS_items w.

(** [GET /plot/<index_name>], where [index_name] is what follows
    [/plot/] in the path of the request.  The handler runs when the rule
    matches; otherwise the router answers. *)
Definition serve_plot (index_name : string) (w : world) : response :=
  if plot_rule_matches index_name then
    match files w !! plot_file index_name with
    | Some image => {| body := image; status := 200 |}
    | None => {| body := "Plot not found"; status := 404 |}
    end
  else {| body := not_found_page; status := 404 |}.

End Run.

(** ** The specification's vocabulary *)

(** An entry exceeds [t] when its absolute value is strictly above [t];
    NaN exceeds nothing. *)
Definition exceeds (t : R) (z : float64) : Prop :=
  match z with
  | Fin x => t < Rabs x
  | PInf | NInf => True
  | NaN => False
  end.

#[global] Instance exceeds_dec t z : Decision (exceeds t z).
Proof.
  destruct z; simpl; [apply Rlt_dec | left; exact I | left; exact I | right; tauto].
Defined.

(** The number of entries [z] with [|z| > t]. *)
Definition number_exceeding (t : R) (zs : list float64) : nat :=
  length (filter (exceeds t) zs).

(** The return series in the specification's words: for each adjacent
    pair of prices, [ln p[i] - ln p[i-1]]. *)
Definition log_returns (p : list R) : list R :=
  zip_with (fun prev cur => ln cur - ln prev) p (tail p).

Definition Rsum (l : list R) : R := foldr Rplus 0 l.

Definition arithmetic_mean (r : list R) : R := Rsum r / INR (length r).

(** The sum of the squared deviations from the mean. *)
Definition sum_sq_dev (r : list R) : R :=
  Rsum (map (fun x => (x - arithmetic_mean r) * (x - arithmetic_mean r)) r).

(** The sample standard deviation, divisor [n - 1].  It is a [float64]
    because the quotient is 0/0 for a series of one entry. *)
Definition sample_stddev (r : list R) : float64 :=
  fsqrt (fdiv (Fin (sum_sq_dev r)) (Fin (INR (length r) - 1))).

(** [(r - mean) / stddev], with the statistics of the whole series. *)
Definition normalized (r : list R) : list float64 :=
  map (fun x => fdiv (Fin (x - arithmetic_mean r)) (sample_stddev r)) r.

Definition all_identical (r : list R) : Prop :=
  forall x y, x ∈ r -> y ∈ r -> x = y.

(** The four tickers of the form. *)
Definition four_tickers : list string :=
  ["DJIA"; "SP500"; "NASDAQ"; "NIFTY50"]%string.

(** The ticker field is missing, empty, or none of the four. *)
Definition invalid_ticker (form : gmap string string) : Prop :=
  form !! "index"%string = None
  \/ form !! "index"%string = Some ""%string
  \/ exists s, form !! "index"%string = Some s /\ s ∉ four_tickers.

(** Every column is as long as the index. *)
Definition aligned (df : DataFrame) : Prop :=
  Forall (fun c => length c.2 = length (index df)) (columns df).

(** No column holds NaN. *)
Definition nan_free (df : DataFrame) : Prop :=
  Forall (fun c => Forall (fun v => notna v = true) c.2) (columns df).

(** The number of rows a mask keeps. *)
Definition kept (mask : list bool) : nat :=
  length (List.filter (fun b => b) mask).

(** [below m bs]: [bs] is at least as long as the mask [m] and is true
    wherever [m] is. *)
Inductive below : list bool -> list bool -> Prop :=
  | below_nil (bs : list bool) : below [] bs
  | below_cons (m b : bool) (ms bs : list bool) :
      (m = true -> b = true) -> below ms bs -> below (m :: ms) (b :: bs).

(** * Properties *)

Ltac float_cases :=
  repeat match goal with
  | |- context [Rlt_dec ?a ?b] => destruct (Rlt_dec a b)
  | |- context [Req_dec_T ?a ?b] => destruct (Req_dec_T a b)
  end.

(** ** The special values of float64 *)

Example inf_minus_inf : fsub PInf PInf = NaN.
Proof. reflexivity. Qed.

Example finite_plus_inf (x : R) : fadd (Fin x) PInf = PInf /\ fadd NInf (Fin x) = NInf.
Proof. split; reflexivity. Qed.

Example zero_times_inf : fmul (Fin 0) PInf = NaN.
Proof. cbn. unfold inf_of_sign. float_cases; try lra. reflexivity. Qed.

Example zero_over_zero : fdiv (Fin 0) (Fin 0) = NaN.
Proof. cbn. unfold inf_of_sign. float_cases; try lra. reflexivity. Qed.

Example one_over_zero : fdiv (Fin 1) (Fin 0) = PInf.
Proof. cbn. unfold inf_of_sign. float_cases; try lra. reflexivity. Qed.

Example inf_over_inf : fdiv PInf NInf = NaN /\ fdiv (Fin 1) NInf = Fin 0.
Proof. split; reflexivity. Qed.

Example log_of_zero : np_log1 (Fin 0) = NInf.
Proof. cbn. float_cases; try lra. reflexivity. Qed.

Example log_of_negative : np_log1 (Fin (-1)) = NaN.
Proof. cbn. float_cases; try lra. reflexivity. Qed.

Example nan_compares_false (a : float64) : fgt NaN a = false /\ fgt a NaN = false.
Proof. destruct a; split; reflexivity. Qed.

Example shift1_example (a b c : float64) : shift1 [a; b; c] = [NaN; a; b].
Proof. reflexivity. Qed.

Example dropna_example :
  dropna {| index := [0; 1; 2]%Z;
            columns := [("Close"%string, [Fin 1; Fin 2; Fin 3]);
                        ("Delta"%string, [NaN; PInf; Fin 0])] |}
  = {| index := [1; 2]%Z;
       columns := [("Close"%string, [Fin 2; Fin 3]);
                   ("Delta"%string, [PInf; Fin 0])] |}.
Proof. reflexivity. Qed.

Example norm_cdf_0 : norm_cdf 0 = 1 / 2.
Proof. unfold norm_cdf. rewrite RiemannInt_P9. lra. Qed.

(** ** The comparator *)

Example report_has_ten_rows (zs : list float64) :
  length (compute_distribution_stats zs) = 10%nat.
Proof. reflexivity. Qed.

Lemma fgt_abs_exceeds (t : R) (z : float64) :
  fgt (fabs z) (Fin t) = true <-> exceeds t z.
Proof.
  destruct z; simpl; float_cases; intuition (try lra; discriminate).
Qed.

Lemma count_above_number (zs : list float64) (t : Z) :
  count_above zs t = Z.of_nat (number_exceeding (IZR t) zs).
Proof.
  unfold count_above, number_exceeding, series_abs, of_int.
  induction zs as [|z zs IH]; [reflexivity|].
  cbn [map sum_true foldr]. rewrite filter_cons.
  change (foldr _ 0%Z ?l) with (sum_true l). rewrite IH.
  destruct (decide (exceeds (IZR t) z)) as [He|He].
  - apply fgt_abs_exceeds in He. rewrite He. cbn [length Z.b2z]. lia.
  - destruct (fgt (fabs z) (Fin (IZR t))) eqn:Hg.
    + apply fgt_abs_exceeds in Hg. contradiction.
    + cbn [Z.b2z]. lia.
Qed.

Lemma thresholds_lookup (t : Z) :
  t ∈ thresholds -> thresholds !! Z.to_nat (t - 1) = Some t.
Proof.
  unfold thresholds. intros Ht.
  repeat (apply elem_of_cons in Ht as [->|Ht]; [reflexivity|]).
  inversion Ht.
Qed.

Lemma INR_length_pos {A : Type} (l : list A) : l <> [] -> 0 < INR (length l).
Proof.
  destruct l; [congruence|]. intros _. apply lt_0_INR. simpl. lia.
Qed.

Lemma stats_for_nonempty (z_scores : list float64) (t : Z) :
  z_scores <> [] ->
  let n := INR (length z_scores) in
  let k := INR (number_exceeding (IZR t) z_scores) in
  let p := 2 * (1 - norm_cdf (IZR t)) in
  stats_for z_scores t
  = {| threshold := t;
       observed_count := Z.of_nat (number_exceeding (IZR t) z_scores);
       observed_pct := Fin (k / n * 100);
       expected_count := Fin (p * n);
       expected_pct := Fin (p * 100);
       diff_count := Fin (k - p * n);
       diff_pct := Fin (k / n * 100 - p * 100) |}.
Proof.
  intros Hne n k p.
  unfold stats_for. rewrite count_above_number.
  unfold of_int. rewrite <- !INR_IZR_INZ. fold n k.
  assert (Hn : n <> 0) by (pose proof (INR_length_pos z_scores Hne); unfold n; lra).
  cbn [fdiv fmul fsub fadd fneg].
  destruct (Req_dec_T n 0) as [E|_]; [contradiction|].
  fold p. f_equal; f_equal; lra.
Qed.

(** C1.  For a non-empty z-score series of length [n] and a threshold
    [t] of the list 1..10, the report has a row for [t], at position
    [t - 1], and it is the only row with that threshold.  It holds: the
    number of entries with [|z| > t] as observed count, that number
    divided by [n] times 100 as observed percentage, [2*(1-Φ(t))*n] as
    expected count, [2*(1-Φ(t))*100] as expected percentage, and
    observed minus expected as the two differences. *)
Theorem stats_row_spec (z_scores : list float64) (t : Z) :
  z_scores <> [] ->
  t ∈ thresholds ->
  let n := INR (length z_scores) in
  let k := INR (number_exceeding (IZR t) z_scores) in
  let p := 2 * (1 - norm_cdf (IZR t)) in
  let row :=
    {| threshold := t;
       observed_count := Z.of_nat (number_exceeding (IZR t) z_scores);
       observed_pct := Fin (k / n * 100);
       expected_count := Fin (p * n);
       expected_pct := Fin (p * 100);
       diff_count := Fin (k - p * n);
       diff_pct := Fin (k / n * 100 - p * 100) |} in
  compute_distribution_stats z_scores !! Z.to_nat (t - 1) = Some row
  /\ forall r : stats_row,
       r ∈ compute_distribution_stats z_scores -> threshold r = t -> r = row.
Proof.
  intros Hne Ht n k p row.
  pose proof (stats_for_nonempty z_scores t Hne) as Hrow.
  cbv zeta in Hrow. fold n k p row in Hrow.
  unfold compute_distribution_stats. split.
  - rewrite list_lookup_fmap, (thresholds_lookup t Ht), <- Hrow. reflexivity.
  - intros r Hr Hthr. apply list_elem_of_fmap in Hr as (t' & -> & _).
    cbn [threshold stats_for] in Hthr. subst t'. exact Hrow.
Qed.

Lemma stats_row_spec_witness :
  exists r,
    compute_distribution_stats [Fin 3; Fin 0] !! Z.to_nat (2 - 1) = Some r
    /\ threshold r = 2%Z
    /\ expected_pct r = Fin (2 * (1 - norm_cdf 2) * 100).
Proof.
  eexists. split.
  - apply (stats_row_spec [Fin 3; Fin 0] 2).
    + discriminate.
    + unfold thresholds. apply list_elem_of_In. right. left. reflexivity.
  - split; reflexivity.
Defined.

Lemma fgt_antitone (a : float64) (t1 t2 : R) :
  t1 <= t2 -> fgt a (Fin t2) = true -> fgt a (Fin t1) = true.
Proof.
  intros Hle. destruct a; simpl; float_cases; try lra; congruence.
Qed.

Lemma count_above_antitone (zs : list float64) (t1 t2 : Z) :
  (t1 <= t2)%Z -> (count_above zs t2 <= count_above zs t1)%Z.
Proof.
  intros Hle. unfold count_above, series_abs, of_int.
  induction zs as [|z zs IH]; [reflexivity|].
  cbn [map sum_true foldr]. change (foldr _ 0%Z ?l) with (sum_true l).
  pose proof (fgt_antitone (fabs z) (IZR t1) (IZR t2) (IZR_le _ _ Hle)) as Hz.
  destruct (fgt (fabs z) (Fin (IZR t2))); [rewrite Hz by reflexivity; lia|].
  destruct (fgt (fabs z) (Fin (IZR t1))); cbn [Z.b2z]; lia.
Qed.

Lemma thresholds_ascending (i : nat) (t : Z) :
  thresholds !! i = Some t -> t = (Z.of_nat i + 1)%Z.
Proof.
  unfold thresholds. intros H.
  do 10 (destruct i as [|i]; [injection H as <-; reflexivity|]).
  discriminate.
Qed.

(** C10.  The observed count does not increase with the threshold, and
    so the rows of the report, whose thresholds ascend, have
    non-increasing observed counts. *)
Theorem observed_count_antitone (zs : list float64) (t1 t2 : Z) :
  (t1 <= t2)%Z ->
  (observed_count (stats_for zs t2) <= observed_count (stats_for zs t1))%Z
  /\ forall (i j : nat) (r1 r2 : stats_row),
       (i <= j)%nat ->
       compute_distribution_stats zs !! i = Some r1 ->
       compute_distribution_stats zs !! j = Some r2 ->
       (observed_count r2 <= observed_count r1)%Z.
Proof.
  intros Hle. split; [apply count_above_antitone, Hle|].
  unfold compute_distribution_stats. intros i j r1 r2 Hij H1 H2.
  rewrite list_lookup_fmap in H1, H2.
  destruct (thresholds !! i) as [ti|] eqn:Ei; [|discriminate].
  destruct (thresholds !! j) as [tj|] eqn:Ej; [|discriminate].
  injection H1 as <-. injection H2 as <-.
  apply thresholds_ascending in Ei, Ej. subst.
  apply count_above_antitone. lia.
Qed.

Lemma observed_count_antitone_witness :
  (observed_count (stats_for [Fin 3; NaN; PInf] 2)
   <= observed_count (stats_for [Fin 3; NaN; PInf] 1))%Z.
Proof.
  apply (observed_count_antitone [Fin 3; NaN; PInf] 1 2). lia.
Defined.

(** ** Series of finite values *)

Lemma valid_Fin (l : list R) : valid (map Fin l) = map Fin l.
Proof.
  unfold valid. induction l as [|x l IH]; [reflexivity|].
  cbn [map List.filter notna isnan negb]. now rewrite IH.
Qed.

Lemma fsum_Fin (l : list R) : fsum (map Fin l) = Fin (Rsum l).
Proof.
  unfold fsum, Rsum. induction l as [|x l IH]; [reflexivity|].
  cbn [map foldr]. now rewrite IH.
Qed.

Lemma Rsum_ext {A : Type} (f g : A -> R) (l : list A) :
  (forall x, f x = g x) -> Rsum (map f l) = Rsum (map g l).
Proof. intros H. f_equal. apply map_ext. exact H. Qed.

Lemma fdiv_Fin (x y : R) : y <> 0 -> fdiv (Fin x) (Fin y) = Fin (x / y).
Proof. intros Hy. simpl. destruct (Req_dec_T y 0); [contradiction|reflexivity]. Qed.

Lemma series_mean_Fin (l : list R) :
  l <> [] -> series_mean (map Fin l) = Fin (arithmetic_mean l).
Proof.
  intros Hl. unfold series_mean, arithmetic_mean.
  rewrite valid_Fin, length_map, fsum_Fin.
  pose proof (INR_length_pos l Hl) as Hpos.
  destruct l as [|x l]; [congruence|]. cbn [length] in *.
  apply fdiv_Fin. lra.
Qed.

Lemma sum_sq_dev_singleton (x : R) : sum_sq_dev [x] = 0.
Proof. unfold sum_sq_dev, arithmetic_mean, Rsum. simpl. field. Qed.

Lemma series_std_Fin (l : list R) :
  l <> [] -> series_std (map Fin l) = sample_stddev l.
Proof.
  intros Hl. unfold series_std, sample_stddev.
  rewrite valid_Fin, length_map, fsum_Fin.
  destruct l as [|x [|y l]]; [congruence| |].
  - rewrite sum_sq_dev_singleton. simpl.
    destruct (Req_dec_T (1 - 1) 0) as [_|H]; [|lra].
    unfold inf_of_sign. float_cases; try lra. reflexivity.
  - replace (length (x :: y :: l) <=? 1)%nat with false by reflexivity.
    set (r := x :: y :: l).
    assert (Hpos : 0 < INR (length r)) by (apply INR_length_pos; discriminate).
    rewrite fdiv_Fin by lra. fold (arithmetic_mean r).
    rewrite map_map. cbn [fsub fneg fadd fmul].
    rewrite <- (map_map (fun x => (arithmetic_mean r + - x) * (arithmetic_mean r + - x)) Fin).
    rewrite fsum_Fin. unfold sum_sq_dev.
    rewrite (Rsum_ext _ (fun x => (x - arithmetic_mean r) * (x - arithmetic_mean r)))
      by (intros; ring).
    reflexivity.
Qed.

Lemma z_score_Fin (l : list R) :
  l <> [] -> z_score (map Fin l) = normalized l.
Proof.
  intros Hl. unfold z_score, normalized.
  rewrite series_mean_Fin, series_std_Fin by assumption.
  rewrite map_map. apply map_ext. intros x.
  cbn [fsub fneg fadd]. reflexivity.
Qed.

(** ** The return/z-score engine on positive prices *)

Definition positive_prices (p : list R) : Prop := Forall (fun x => 0 < x) p.

Lemma length_log_returns (p : list R) :
  length (log_returns p) = (length p - 1)%nat.
Proof.
  unfold log_returns. rewrite length_zip_with.
  destruct p; cbn [tail length]; lia.
Qed.

Lemma np_log1_positive (x : R) : 0 < x -> np_log1 (Fin x) = Fin (ln x).
Proof. intros Hx. simpl. destruct (Rlt_dec 0 x); [reflexivity|contradiction]. Qed.

Lemma delta_after (p : list R) (prev : R) :
  positive_prices p -> 0 < prev ->
  series_sub (np_log (map Fin p))
             (np_log (take (length p) (Fin prev :: map Fin p)))
  = map Fin (zip_with (fun a b => ln b - ln a) (prev :: p) p).
Proof.
  unfold series_sub, np_log. intros Hp. revert prev.
  induction Hp as [|x p Hx Hp IH]; intros prev Hprev; [reflexivity|].
  cbn [length take map zip_with].
  rewrite (IH x Hx), !np_log1_positive by assumption.
  reflexivity.
Qed.

Lemma delta_positive (x : R) (p : list R) :
  positive_prices (x :: p) ->
  series_sub (np_log (map Fin (x :: p))) (np_log (shift1 (map Fin (x :: p))))
  = NaN :: map Fin (log_returns (x :: p)).
Proof.
  intros Hp. inversion Hp as [|? ? Hx Hp']; subst.
  unfold shift1, log_returns. cbn [map length take tail].
  rewrite length_map.
  pose proof (delta_after p x Hp' Hx) as H.
  unfold series_sub, np_log in *. cbn [map zip_with].
  rewrite H, np_log1_positive by assumption. reflexivity.
Qed.

Lemma notna_Fin (l : list R) : map notna (map Fin l) = repeat true (length l).
Proof. induction l as [|x l IH]; [reflexivity|]. cbn. now rewrite IH. Qed.

Lemma andb_repeat_true (n : nat) :
  zip_with andb (repeat true n) (repeat true n) = repeat true n.
Proof. induction n as [|n IH]; [reflexivity|]. cbn. now rewrite IH. Qed.

Lemma keep_all {A : Type} (l : list A) :
  keep (repeat true (length l)) l = l.
Proof. induction l as [|x l IH]; [reflexivity|]. cbn. now rewrite IH. Qed.

(** [dropna] on a frame whose only NaN is the first return. *)
Lemma dropna_first_row (d : date) (dates : list date) (c : R) (cs rs : list R) :
  length dates = length cs -> length rs = length cs ->
  dropna {| index := d :: dates;
            columns := [("Close"%string, map Fin (c :: cs));
                        ("Delta"%string, NaN :: map Fin rs)] |}
  = {| index := dates;
       columns := [("Close"%string, map Fin cs); ("Delta"%string, map Fin rs)] |}.
Proof.
  intros Hd Hr. unfold dropna, row_mask.
  cbn [index columns foldr snd fst map length repeat notna isnan negb
       zip_with andb].
  rewrite !notna_Fin, Hd, Hr, !andb_repeat_true.
  cbn [keep]. rewrite <- Hd at 1. rewrite keep_all.
  rewrite <- (length_map Fin cs) at 1. rewrite keep_all.
  rewrite <- Hr, <- (length_map Fin rs). rewrite keep_all.
  reflexivity.
Qed.

Lemma compute_daily_price_change_price_frame
  (dates : list date) (close : list float64) :
  compute_daily_price_change (price_frame dates close)
  = Ok {| index := dates;
          columns :=
            [("Close"%string, close);
             ("Delta"%string,
              series_sub (np_log close) (np_log (shift1 close)))] |}.
Proof. reflexivity. Qed.

Lemma getitem_Delta (dates : list date) (c d : list float64) :
  getitem {| index := dates;
             columns := [("Close"%string, c); ("Delta"%string, d)] |} "Delta"
  = Ok d.
Proof. reflexivity. Qed.

Lemma setitem_Z_Score (dates : list date) (c d z : list float64) :
  setitem {| index := dates;
             columns := [("Close"%string, c); ("Delta"%string, d)] |}
          "Z-Score" z
  = {| index := dates;
       columns := [("Close"%string, c); ("Delta"%string, d);
                   ("Z-Score"%string, z)] |}.
Proof. reflexivity. Qed.

(** The engine on a series of at least two positive prices, in full. *)
Lemma main_z_scores_positive (dates : list date) (p : list R) :
  length dates = length p -> (2 <= length p)%nat -> positive_prices p ->
  main_z_scores (price_frame dates (map Fin p))
  = Ok {| index := tail dates;
          columns := [("Close"%string, map Fin (tail p));
                      ("Delta"%string, map Fin (log_returns p));
                      ("Z-Score"%string, normalized (log_returns p))] |}.
Proof.
  intros Hd Hn Hp.
  destruct p as [|x p]; [cbn in Hn; lia|].
  destruct dates as [|d dates]; [discriminate|].
  unfold main_z_scores.
  rewrite compute_daily_price_change_price_frame.
  cbn [mbind result_bind].
  rewrite (delta_positive x p Hp).
  rewrite dropna_first_row.
  - rewrite getitem_Delta. cbn [mbind result_bind].
    rewrite setitem_Z_Score.
    rewrite z_score_Fin; [reflexivity|].
    intros E. apply (f_equal length) in E.
    rewrite length_log_returns in E. cbn in E, Hn. lia.
  - cbn in Hd. lia.
  - rewrite length_log_returns. cbn. lia.
Qed.

(** C2.  On a series of at least two positive prices the engine puts in
    the column Delta the returns [ln p[i] - ln p[i-1]] of the adjacent
    pairs, and in the column Z-Score each return minus the arithmetic
    mean, divided by the sample standard deviation (divisor [n-1]);
    both statistics are those of the whole return series. *)
Theorem engine_computes_z_scores (dates : list date) (p : list R) :
  length dates = length p -> (2 <= length p)%nat -> positive_prices p ->
  exists df : DataFrame,
    main_z_scores (price_frame dates (map Fin p)) = Ok df
    /\ getitem df "Delta" = Ok (map Fin (log_returns p))
    /\ getitem df "Z-Score"
       = Ok (map (fun r =>
                    fdiv (Fin (r - arithmetic_mean (log_returns p)))
                         (sample_stddev (log_returns p)))
                 (log_returns p)).
Proof.
  intros Hd Hn Hp. eexists. split.
  - apply main_z_scores_positive; assumption.
  - split; reflexivity.
Qed.

Lemma exp_1_2_positive : positive_prices [1; exp 1; exp 3].
Proof.
  unfold positive_prices. repeat constructor; try apply exp_pos. lra.
Qed.

Lemma engine_computes_z_scores_witness :
  exists df : DataFrame,
    main_z_scores (price_frame [0; 1; 2]%Z (map Fin [1; exp 1; exp 3])) = Ok df
    /\ getitem df "Delta" = Ok (map Fin (log_returns [1; exp 1; exp 3]))
    /\ getitem df "Z-Score"
       = Ok (map (fun r =>
                    fdiv (Fin (r - arithmetic_mean (log_returns [1; exp 1; exp 3])))
                         (sample_stddev (log_returns [1; exp 1; exp 3])))
                 (log_returns [1; exp 1; exp 3])).
Proof.
  apply (engine_computes_z_scores [0; 1; 2]%Z [1; exp 1; exp 3]).
  - reflexivity.
  - simpl. lia.
  - exact exp_1_2_positive.
Defined.

(** C6.  From [n >= 2] positive prices the engine yields [n - 1]
    z-scores: the row of the first date is dropped, the remaining dates
    are kept in order, and no return left in the frame is NaN. *)
Theorem z_scores_drop_first_date (dates : list date) (p : list R) :
  length dates = length p -> (2 <= length p)%nat -> positive_prices p ->
  exists (df : DataFrame) (delta zs : list float64),
    main_z_scores (price_frame dates (map Fin p)) = Ok df
    /\ getitem df "Z-Score" = Ok zs
    /\ length zs = (length p - 1)%nat
    /\ index df = tail dates
    /\ length (index df) = (length p - 1)%nat
    /\ getitem df "Delta" = Ok delta
    /\ Forall is_finite delta.
Proof.
  intros Hd Hn Hp.
  eexists. exists (map Fin (log_returns p)), (normalized (log_returns p)).
  split; [apply main_z_scores_positive; assumption|].
  cbn [index]. repeat split.
  - unfold normalized. now rewrite length_map, length_log_returns.
  - destruct dates; cbn [tail length] in *; lia.
  - apply Forall_fmap, Forall_true. intros x. exact I.
Qed.

Lemma z_scores_drop_first_date_witness :
  exists (df : DataFrame) (delta zs : list float64),
    main_z_scores (price_frame [0; 1; 2]%Z (map Fin [1; exp 1; exp 3])) = Ok df
    /\ getitem df "Z-Score" = Ok zs
    /\ length zs = 2%nat
    /\ index df = [1; 2]%Z
    /\ length (index df) = 2%nat
    /\ getitem df "Delta" = Ok delta
    /\ Forall is_finite delta.
Proof.
  apply (z_scores_drop_first_date [0; 1; 2]%Z [1; exp 1; exp 3]).
  - reflexivity.
  - simpl. lia.
  - exact exp_1_2_positive.
Defined.

(** ** Sums of squared deviations *)

Lemma Rsum_div {A : Type} (f : A -> R) (c : R) (l : list A) :
  Rsum (map (fun x => f x / c) l) = Rsum (map f l) / c.
Proof.
  unfold Rsum. induction l as [|x l IH].
  - cbn. unfold Rdiv. ring.
  - cbn [map foldr]. rewrite IH. unfold Rdiv. ring.
Qed.

Lemma Rsum_squares_nonneg (m : R) (l : list R) :
  0 <= Rsum (map (fun x => (x - m) * (x - m)) l).
Proof.
  unfold Rsum. induction l as [|x l IH]; cbn [map foldr]; [lra|].
  pose proof (Rle_0_sqr (x - m)) as Hx. unfold Rsqr in Hx. lra.
Qed.

Lemma Rsum_squares_zero (m : R) (l : list R) :
  Rsum (map (fun x => (x - m) * (x - m)) l) = 0 -> Forall (fun x => x = m) l.
Proof.
  induction l as [|x l IH]; intros H; [constructor|].
  pose proof (Rsum_squares_nonneg m l) as Hl.
  unfold Rsum in *. cbn [map foldr] in H.
  pose proof (Rle_0_sqr (x - m)) as Hsq. unfold Rsqr in Hsq.
  assert (Hx : (x - m) * (x - m) = 0) by lra.
  constructor; [|apply IH; lra].
  apply Rmult_integral in Hx. lra.
Qed.

Lemma sum_sq_dev_positive (r : list R) :
  ~ all_identical r -> 0 < sum_sq_dev r /\ (2 <= length r)%nat.
Proof.
  intros Hr.
  assert (Hpos : 0 < sum_sq_dev r).
  { destruct (Rsum_squares_nonneg (arithmetic_mean r) r) as [H|H]; [exact H|].
    exfalso. apply Hr. symmetry in H. apply Rsum_squares_zero in H.
    rewrite Forall_forall in H. intros x y Hx Hy.
    transitivity (arithmetic_mean r); [|symmetry]; apply H; assumption. }
  split; [exact Hpos|].
  destruct r as [|x [|y r]]; cbn [length]; try lia.
  - exfalso. apply Hr. intros x y Hx. inversion Hx.
  - rewrite sum_sq_dev_singleton in Hpos. lra.
Qed.

Lemma sample_stddev_positive (r : list R) :
  ~ all_identical r ->
  exists s, 0 < s /\ sample_stddev r = Fin s
            /\ s * s = sum_sq_dev r / (INR (length r) - 1).
Proof.
  intros Hr. destruct (sum_sq_dev_positive r Hr) as [Hpos Hlen].
  assert (Hn : 0 < INR (length r) - 1).
  { apply le_INR in Hlen. simpl in Hlen. lra. }
  assert (Hq : 0 < sum_sq_dev r / (INR (length r) - 1))
    by (apply Rdiv_lt_0_compat; assumption).
  exists (sqrt (sum_sq_dev r / (INR (length r) - 1))). split; [|split].
  - apply sqrt_lt_R0. exact Hq.
  - unfold sample_stddev. rewrite fdiv_Fin by lra. simpl.
    destruct (Rlt_dec (sum_sq_dev r / (INR (length r) - 1)) 0); [lra|reflexivity].
  - apply sqrt_sqrt. lra.
Qed.

Lemma log_returns_1_2 : log_returns [1; exp 1; exp 3] = [1; 2].
Proof.
  unfold log_returns. cbn [tail zip_with].
  rewrite !ln_exp, ln_1. f_equal; [lra|]. f_equal. lra.
Qed.

(** ** Constant prices *)

Lemma Rsum_constant (c : R) (r : list R) :
  Forall (fun x => x = c) r -> Rsum r = INR (length r) * c.
Proof.
  unfold Rsum. induction 1 as [|x r Hx Hr IH].
  - cbn. ring.
  - cbn [foldr length]. rewrite IH, S_INR, Hx. ring.
Qed.

Lemma zeros_mean (r : list R) :
  Forall (fun x => x = 0) r -> arithmetic_mean r = 0.
Proof.
  intros Hr. unfold arithmetic_mean. rewrite (Rsum_constant 0 r Hr).
  unfold Rdiv. ring.
Qed.

Lemma zeros_sum_sq_dev (r : list R) :
  Forall (fun x => x = 0) r -> sum_sq_dev r = 0.
Proof.
  intros Hr. unfold sum_sq_dev. rewrite (zeros_mean r Hr).
  rewrite (Rsum_constant 0); [ring|].
  apply Forall_fmap. eapply Forall_impl; [exact Hr|].
  intros x ->. cbn. ring.
Qed.

(** Returns that are all zero have standard deviation 0, or NaN when
    there is one return only; either way every quotient is NaN. *)
Lemma normalized_zeros (r : list R) :
  Forall (fun x => x = 0) r -> Forall (fun z => z = NaN) (normalized r).
Proof.
  intros Hr. unfold normalized. apply Forall_fmap.
  eapply Forall_impl; [exact Hr|]. intros x ->. cbn.
  rewrite (zeros_mean r Hr). unfold sample_stddev.
  rewrite (zeros_sum_sq_dev r Hr).
  replace (0 - 0) with 0 by ring.
  cbn [fdiv]. destruct (Req_dec_T (INR (length r) - 1) 0) as [E|E].
  - unfold inf_of_sign. float_cases; try lra. reflexivity.
  - replace (0 / (INR (length r) - 1)) with 0 by (field; exact E).
    cbn [fsqrt]. destruct (Rlt_dec 0 0); [lra|]. rewrite sqrt_0.
    cbn [fdiv]. destruct (Req_dec_T 0 0); [|lra].
    unfold inf_of_sign. float_cases; try lra. reflexivity.
Qed.

Lemma Forall_eq_repeat {A : Type} (c : A) (l : list A) :
  Forall (fun z => z = c) l -> l = repeat c (length l).
Proof. induction 1 as [|x l -> _ IH]; [reflexivity|]. cbn. now rewrite <- IH. Qed.

(** The returns of a constant series are all zero: each is the
    difference of a logarithm with itself. *)
Lemma log_returns_constant (c : R) (n : nat) :
  Forall (fun x => x = 0) (log_returns (repeat c n)).
Proof.
  unfold log_returns. destruct n as [|n]; [constructor|].
  cbn [repeat tail]. induction n as [|n IH]; [constructor|].
  change (zip_with (fun prev cur => ln cur - ln prev)
                   (c :: repeat c (S n)) (repeat c (S n)))
    with ((ln c - ln c)
          :: zip_with (fun prev cur => ln cur - ln prev)
                      (c :: repeat c n) (repeat c n)).
  constructor; [ring|exact IH].
Qed.

Lemma positive_prices_constant (c : R) (n : nat) :
  0 < c -> positive_prices (repeat c n).
Proof.
  intros Hc. unfold positive_prices. induction n; cbn; constructor; assumption.
Qed.

(** C4, as the code has it.  A constant series of at least two positive
    prices raises nothing.  Its returns are all zero, each being the
    difference of a logarithm with itself, and the engine returns its
    [n - 1] z-scores, every one of them NaN: 0/0, or a division by the
    NaN standard deviation of a single return. *)
Theorem constant_prices_all_nan (dates : list date) (c : R) (n : nat) :
  length dates = n -> (2 <= n)%nat -> 0 < c ->
  exists (df : DataFrame) (delta zs : list float64),
    main_z_scores (price_frame dates (map Fin (repeat c n))) = Ok df
    /\ getitem df "Delta" = Ok delta
    /\ Forall (fun r => r = Fin 0) delta
    /\ getitem df "Z-Score" = Ok zs
    /\ length zs = (n - 1)%nat
    /\ Forall (fun z => z = NaN) zs.
Proof.
  intros Hd Hn Hc.
  eexists. exists (map Fin (log_returns (repeat c n))),
                  (normalized (log_returns (repeat c n))).
  split.
  - apply main_z_scores_positive.
    + now rewrite repeat_length.
    + now rewrite repeat_length.
    + apply positive_prices_constant, Hc.
  - split; [reflexivity|]. split.
    + apply Forall_fmap. eapply Forall_impl; [apply log_returns_constant|].
      intros x ->. reflexivity.
    + split; [reflexivity|]. split.
      * unfold normalized.
        now rewrite length_map, length_log_returns, repeat_length.
      * apply normalized_zeros, log_returns_constant.
Qed.

Lemma constant_prices_all_nan_witness :
  exists (df : DataFrame) (delta zs : list float64),
    main_z_scores (price_frame [0; 1; 2]%Z (map Fin (repeat 1 3))) = Ok df
    /\ getitem df "Delta" = Ok delta
    /\ Forall (fun r => r = Fin 0) delta
    /\ getitem df "Z-Score" = Ok zs
    /\ length zs = (3 - 1)%nat
    /\ Forall (fun z => z = NaN) zs.
Proof.
  apply (constant_prices_all_nan [0; 1; 2]%Z 1 3).
  - reflexivity.
  - lia.
  - lra.
Defined.

Lemma constant_prices_positive : positive_prices [1; 1; 1].
Proof. unfold positive_prices. repeat constructor; lra. Qed.

(** C4 refuted: the constant series 1, 1, 1 does not make the engine
    fail; its z-scores are NaN, NaN. *)
Lemma constant_prices_give_nan :
  exists df : DataFrame,
    main_z_scores (price_frame [0; 1; 2]%Z [Fin 1; Fin 1; Fin 1]) = Ok df
    /\ getitem df "Z-Score" = Ok [NaN; NaN].
Proof.
  eexists. split.
  - apply (main_z_scores_positive [0; 1; 2]%Z [1; 1; 1]).
    + reflexivity.
    + simpl. lia.
    + exact constant_prices_positive.
  - cbn [getitem columns lookup_column].
    rewrite (Forall_eq_repeat NaN (normalized (log_returns [1; 1; 1]))
               (normalized_zeros (log_returns [1; 1; 1])
                  (log_returns_constant 1 3))).
    reflexivity.
Qed.

(** ** Prices that are not positive *)

(** The engine on any frame that [fetch_historical_price_data] can
    return: no step raises. *)
Lemma main_z_scores_price_frame (dates : list date) (close : list float64) :
  main_z_scores (price_frame dates close)
  = let delta := series_sub (np_log close) (np_log (shift1 close)) in
    let mask :=
      row_mask {| index := dates;
                  columns := [("Close"%string, close); ("Delta"%string, delta)] |} in
    Ok {| index := keep mask dates;
          columns := [("Close"%string, keep mask close);
                      ("Delta"%string, keep mask delta);
                      ("Z-Score"%string, z_score (keep mask delta))] |}.
Proof. reflexivity. Qed.

Lemma fadd_NaN_r (a : float64) : fadd a NaN = NaN.
Proof. destruct a; reflexivity. Qed.

Lemma fsum_NaN (s : list float64) : NaN ∈ s -> fsum s = NaN.
Proof.
  unfold fsum. induction s as [|a s IH]; intros H; [inversion H|].
  cbn [foldr]. apply elem_of_cons in H as [<-|H]; [reflexivity|].
  rewrite (IH H). apply fadd_NaN_r.
Qed.

Lemma fsum_PInf (s : list float64) :
  PInf ∈ s -> fsum s = PInf \/ fsum s = NaN.
Proof.
  unfold fsum. induction s as [|a s IH]; intros H; [inversion H|].
  cbn [foldr]. apply elem_of_cons in H as [<-|H].
  - destruct (foldr fadd (Fin 0) s); cbn; auto.
  - destruct (IH H) as [-> | ->]; destruct a; cbn; auto.
Qed.

Lemma fsum_NInf (s : list float64) :
  NInf ∈ s -> fsum s = NInf \/ fsum s = NaN.
Proof.
  unfold fsum. induction s as [|a s IH]; intros H; [inversion H|].
  cbn [foldr]. apply elem_of_cons in H as [<-|H].
  - destruct (foldr fadd (Fin 0) s); cbn; auto.
  - destruct (IH H) as [-> | ->]; destruct a; cbn; auto.
Qed.

Lemma elem_of_valid (a : float64) (s : list float64) :
  a ∈ s -> notna a = true -> a ∈ valid s.
Proof.
  intros Ha Hn. apply list_elem_of_In, filter_In.
  split; [apply list_elem_of_In, Ha|exact Hn].
Qed.

(** One infinite entry makes the standard deviation NaN: its own
    deviation from the mean is inf - inf. *)
Lemma series_std_infinite (s : list float64) :
  PInf ∈ s \/ NInf ∈ s -> series_std s = NaN.
Proof.
  intros Hinf. unfold series_std.
  set (v := valid s). set (n := length v).
  destruct (n <=? 1)%nat eqn:En; [reflexivity|].
  apply Nat.leb_gt in En.
  assert (Hn : 0 < INR n) by (apply lt_0_INR; lia).
  set (avg := fdiv (fsum v) (Fin (INR n))).
  assert (Hdev : exists a, a ∈ v /\ fsub avg a = NaN).
  { destruct Hinf as [H|H].
    - exists PInf. split; [apply elem_of_valid; [exact H|reflexivity]|].
      apply elem_of_valid with (s := s) in H; [|reflexivity].
      unfold avg. destruct (fsum_PInf v H) as [-> | ->]; cbn; [|reflexivity].
      destruct (Rlt_dec (INR n) 0); [lra|reflexivity].
    - exists NInf. split; [apply elem_of_valid; [exact H|reflexivity]|].
      apply elem_of_valid with (s := s) in H; [|reflexivity].
      unfold avg. destruct (fsum_NInf v H) as [-> | ->]; cbn; [|reflexivity].
      destruct (Rlt_dec (INR n) 0); [lra|reflexivity]. }
  destruct Hdev as (a & Ha & Hd).
  rewrite (fsum_NaN (map (fun x => fmul (fsub avg x) (fsub avg x)) v)).
  - reflexivity.
  - apply list_elem_of_fmap. exists a. rewrite Hd. split; [reflexivity|exact Ha].
Qed.

Lemma fdiv_NaN_r (a : float64) : fdiv a NaN = NaN.
Proof. destruct a; reflexivity. Qed.

Lemma z_score_infinite (s : list float64) :
  PInf ∈ s \/ NInf ∈ s -> Forall (fun z => z = NaN) (z_score s).
Proof.
  intros H. unfold z_score. rewrite (series_std_infinite s H).
  apply Forall_fmap, Forall_true. intros x. apply fdiv_NaN_r.
Qed.

Lemma np_log1_nonpositive (x : R) : x <= 0 -> ~ is_finite (np_log1 (Fin x)).
Proof. intros Hx. cbn. float_cases; try lra; cbn; tauto. Qed.

(** C3, as the code has it.  A price that is zero or negative raises
    nothing.  Its logarithm is not a finite number (-inf at zero, NaN
    below), the engine goes on to return the columns Delta and Z-Score,
    and when an infinite return is left in Delta every z-score is NaN. *)
Theorem nonpositive_price_propagates
  (dates : list date) (close : list float64) (x : R) :
  Fin x ∈ close -> x <= 0 ->
  ~ is_finite (np_log1 (Fin x))
  /\ exists (df : DataFrame) (delta zs : list float64),
       main_z_scores (price_frame dates close) = Ok df
       /\ getitem df "Delta" = Ok delta
       /\ getitem df "Z-Score" = Ok zs
       /\ (PInf ∈ delta \/ NInf ∈ delta -> Forall (fun z => z = NaN) zs).
Proof.
  intros _ Hx. split; [apply np_log1_nonpositive, Hx|].
  rewrite main_z_scores_price_frame. cbv zeta.
  eexists. eexists. eexists. split; [reflexivity|].
  split; [reflexivity|]. split; [reflexivity|].
  apply z_score_infinite.
Qed.

Lemma zero_price_frame :
  main_z_scores (price_frame [0; 1; 2]%Z [Fin 1; Fin 0; Fin 1])
  = Ok {| index := [1; 2]%Z;
          columns := [("Close"%string, [Fin 0; Fin 1]);
                      ("Delta"%string, [NInf; PInf]);
                      ("Z-Score"%string, [NaN; NaN])] |}.
Proof.
  rewrite main_z_scores_price_frame. cbv zeta.
  assert (Hd : series_sub (np_log [Fin 1; Fin 0; Fin 1])
                          (np_log (shift1 [Fin 1; Fin 0; Fin 1]))
               = [NaN; NInf; PInf]).
  { unfold series_sub, np_log, shift1.
    cbn [length take map zip_with np_log1].
    float_cases; try lra. reflexivity. }
  rewrite Hd. reflexivity.
Qed.

Lemma nonpositive_price_propagates_witness :
  ~ is_finite (np_log1 (Fin 0))
  /\ exists (df : DataFrame) (delta zs : list float64),
       main_z_scores (price_frame [0; 1; 2]%Z [Fin 1; Fin 0; Fin 1]) = Ok df
       /\ getitem df "Delta" = Ok delta
       /\ getitem df "Z-Score" = Ok zs
       /\ (PInf ∈ delta \/ NInf ∈ delta -> Forall (fun z => z = NaN) zs).
Proof.
  apply (nonpositive_price_propagates [0; 1; 2]%Z [Fin 1; Fin 0; Fin 1] 0).
  - apply list_elem_of_In. right. left. reflexivity.
  - lra.
Defined.

(** C3 refuted: with the prices 1, 0, 1 the engine does not fail; the
    returns are -inf and +inf and both z-scores are NaN. *)
Lemma zero_price_gives_nan :
  exists df : DataFrame,
    main_z_scores (price_frame [0; 1; 2]%Z [Fin 1; Fin 0; Fin 1]) = Ok df
    /\ getitem df "Delta" = Ok [NInf; PInf]
    /\ getitem df "Z-Score" = Ok [NaN; NaN].
Proof.
  eexists. split; [apply zero_price_frame|]. split; reflexivity.
Qed.

(** ** The comparator on the empty series *)

Lemma stats_for_empty (t : Z) :
  stats_for [] t
  = {| threshold := t;
       observed_count := 0;
       observed_pct := NaN;
       expected_count := Fin 0;
       expected_pct := Fin (2 * (1 - norm_cdf (IZR t)) * 100);
       diff_count := Fin 0;
       diff_pct := NaN |}.
Proof.
  unfold stats_for, count_above, of_int, series_abs.
  change (Z.of_nat (length (@nil float64))) with 0%Z.
  cbn [map sum_true foldr fdiv].
  destruct (Req_dec_T 0 0) as [_|H]; [|lra].
  unfold inf_of_sign. destruct (Rlt_dec 0 0); [lra|].
  cbn [fmul fsub fadd fneg]. f_equal; f_equal; lra.
Qed.

(** C5, as the code has it.  On the empty series the comparator raises
    nothing and returns its ten rows: observed and expected count are 0,
    and the observed percentage, which is 0/0, is NaN, as is the
    difference of the percentages. *)
Theorem empty_series_rows :
  compute_distribution_stats []
  = map (fun t =>
           {| threshold := t;
              observed_count := 0;
              observed_pct := NaN;
              expected_count := Fin 0;
              expected_pct := Fin (2 * (1 - norm_cdf (IZR t)) * 100);
              diff_count := Fin 0;
              diff_pct := NaN |})
        thresholds.
Proof.
  unfold compute_distribution_stats. apply map_ext. exact stats_for_empty.
Qed.

(** C5 refuted: the empty series gets a report of ten rows, and the
    first has NaN as observed percentage. *)
Lemma empty_series_report_has_nan :
  length (compute_distribution_stats []) = 10%nat
  /\ exists r : stats_row,
       compute_distribution_stats [] !! 0%nat = Some r
       /\ observed_pct r = NaN.
Proof.
  split; [reflexivity|].
  exists (stats_for [] 1). split; [reflexivity|].
  rewrite stats_for_empty. reflexivity.
Qed.

(** ** Frames are extended in place *)

(** C9, as the code has it.  [compute_daily_price_change] assigns the
    column Delta on the very frame it is given and returns that frame;
    [dropna] makes a new frame, on which the column Z-Score is then
    assigned.  These assignments add a column and change none that
    exists: the frame given keeps its index and its Close column, the
    new frame is the engine's result, and no other object changes. *)
Theorem frames_extended_in_place
  (a : positive) (σ : gmap positive DataFrame)
  (dates : list date) (close : list float64) :
  σ !! a = Some (price_frame dates close) ->
  exists (b : positive) (σ' : gmap positive DataFrame) (df_a df_b : DataFrame),
    compute_daily_price_change_ref a σ = Ok (a, <[a := df_a]> σ)
    /\ main_z_scores_ref a σ = Ok (b, σ')
    /\ b <> a /\ σ !! b = None
    /\ σ' !! a = Some df_a
    /\ index df_a = dates
    /\ columns df_a
       = [("Close"%string, close);
          ("Delta"%string, series_sub (np_log close) (np_log (shift1 close)))]
    /\ σ' !! b = Some df_b
    /\ main_z_scores (price_frame dates close) = Ok df_b
    /\ forall c : positive, c <> a -> c <> b -> σ' !! c = σ !! c.
Proof.
  intros Ha.
  set (df_a := {| index := dates;
                  columns := [("Close"%string, close);
                              ("Delta"%string,
                               series_sub (np_log close) (np_log (shift1 close)))] |}).
  set (σ1 := <[a := df_a]> σ).
  set (b := fresh (dom σ1)).
  assert (H1 : compute_daily_price_change_ref a σ = Ok (a, σ1)).
  { unfold compute_daily_price_change_ref, deref. rewrite Ha.
    cbn [mbind result_bind]. rewrite compute_daily_price_change_price_frame.
    reflexivity. }
  assert (Hb : σ1 !! b = None) by (apply not_elem_of_dom, is_fresh).
  assert (Hba : b <> a).
  { intros E. rewrite E in Hb. unfold σ1 in Hb.
    rewrite lookup_insert_eq in Hb. discriminate. }
  assert (Hσb : σ !! b = None).
  { unfold σ1 in Hb. rewrite lookup_insert_ne in Hb by congruence. exact Hb. }
  destruct (main_z_scores (price_frame dates close)) as [df_b|e] eqn:Hm;
    [|rewrite main_z_scores_price_frame in Hm; discriminate].
  exists b, (<[b := df_b]> (<[b := dropna df_a]> σ1)), df_a, df_b.
  split; [exact H1|]. split.
  - unfold main_z_scores_ref. rewrite H1. cbn [mbind result_bind fst snd].
    assert (Hσ1a : σ1 !! a = Some df_a) by apply lookup_insert_eq.
    unfold dropna_ref, deref. rewrite Hσ1a.
    cbn [mbind result_bind fst snd]. fold b.
    rewrite lookup_insert_eq. cbn [mbind result_bind].
    unfold setitem_ref, deref.
    unfold main_z_scores in Hm.
    rewrite compute_daily_price_change_price_frame in Hm.
    cbn [mbind result_bind] in Hm. fold df_a in Hm.
    destruct (getitem (dropna df_a) "Delta") as [delta|e]; [|discriminate].
    cbn [mbind result_bind] in *. rewrite lookup_insert_eq.
    cbn [mbind result_bind]. injection Hm as <-. reflexivity.
  - split; [exact Hba|]. split; [exact Hσb|].
    split; [rewrite !lookup_insert_ne by exact Hba; apply lookup_insert_eq|].
    split; [reflexivity|]. split; [reflexivity|].
    split; [apply lookup_insert_eq|]. split; [reflexivity|].
    intros c Hca Hcb. unfold σ1.
    rewrite !lookup_insert_ne by congruence. reflexivity.
Qed.

Lemma frames_extended_in_place_witness :
  exists (b : positive) (σ' : gmap positive DataFrame) (df_a df_b : DataFrame),
    compute_daily_price_change_ref 1
      {[ 1%positive := price_frame [0; 1]%Z [Fin 1; Fin 2] ]}
    = Ok (1%positive,
          <[1%positive := df_a]>
            {[ 1%positive := price_frame [0; 1]%Z [Fin 1; Fin 2] ]})
    /\ main_z_scores_ref 1
         {[ 1%positive := price_frame [0; 1]%Z [Fin 1; Fin 2] ]}
       = Ok (b, σ')
    /\ b <> 1%positive
    /\ ({[ 1%positive := price_frame [0; 1]%Z [Fin 1; Fin 2] ]}
          : gmap positive DataFrame) !! b = None
    /\ σ' !! 1%positive = Some df_a
    /\ index df_a = [0; 1]%Z
    /\ columns df_a
       = [("Close"%string, [Fin 1; Fin 2]);
          ("Delta"%string,
           series_sub (np_log [Fin 1; Fin 2]) (np_log (shift1 [Fin 1; Fin 2])))]
    /\ σ' !! b = Some df_b
    /\ main_z_scores (price_frame [0; 1]%Z [Fin 1; Fin 2]) = Ok df_b
    /\ forall c : positive, c <> 1%positive -> c <> b ->
         σ' !! c
         = ({[ 1%positive := price_frame [0; 1]%Z [Fin 1; Fin 2] ]}
              : gmap positive DataFrame) !! c.
Proof.
  apply (frames_extended_in_place 1
           {[ 1%positive := price_frame [0; 1]%Z [Fin 1; Fin 2] ]}
           [0; 1]%Z [Fin 1; Fin 2]).
  apply lookup_singleton_eq.
Defined.

(** C9 refuted: after [compute_daily_price_change] the frame it was
    given, at reference 1, is no longer the frame it was: it has the
    column Delta. *)
Lemma input_frame_changed :
  exists σ' : gmap positive DataFrame,
    compute_daily_price_change_ref 1
      {[ 1%positive := price_frame [0; 1]%Z [Fin 1; Fin 2] ]}
    = Ok (1%positive, σ')
    /\ σ' !! 1%positive
       <> ({[ 1%positive := price_frame [0; 1]%Z [Fin 1; Fin 2] ]}
             : gmap positive DataFrame) !! 1%positive.
Proof.
  eexists. split.
  - unfold compute_daily_price_change_ref, deref.
    rewrite lookup_singleton_eq. cbn [mbind result_bind].
    rewrite compute_daily_price_change_price_frame. reflexivity.
  - rewrite lookup_insert_eq, lookup_singleton_eq.
    unfold price_frame. intros E. discriminate E.
Qed.

(** ** POST /analyze *)

Lemma in_TICKERS_four (s : string) : in_TICKERS s = true <-> s ∈ four_tickers.
Proof.
  unfold in_TICKERS. rewrite bool_decide_eq_true, <- elem_of_dom.
  unfold TICKERS. rewrite dom_list_to_map_L, elem_of_list_to_set.
  reflexivity.
Qed.

Lemma empty_not_ticker : ""%string ∉ four_tickers.
Proof.
  unfold four_tickers. intros H.
  repeat (apply elem_of_cons in H as [H|H]; [discriminate H|]).
  inversion H.
Qed.

Section AppProperties.

Variable analysis : Type.
Variable analyze_index_for_web : string -> result analysis.
Variable render_results : analysis -> string.

Let handler := analyze analysis analyze_index_for_web render_results.

Lemma analyze_invalid (form : gmap string string) :
  invalid_ticker form -> handler form = ([], Ok invalid_index).
Proof.
  unfold handler, analyze. intros [H|[H|(s & H & Hs)]]; rewrite H; try reflexivity.
  destruct (in_TICKERS s) eqn:E.
  - apply in_TICKERS_four in E. contradiction.
  - now rewrite orb_true_r.
Qed.

Lemma analyze_valid (form : gmap string string) (name : string) :
  form !! "index"%string = Some name -> name ∈ four_tickers ->
  handler form
  = ([name],
     r ← analyze_index_for_web name;
     Ok {| body := render_results r; status := 200 |}).
Proof.
  unfold handler, analyze. intros H Hn. rewrite H.
  assert (E : String.eqb name "" = false).
  { apply String.eqb_neq. intros ->. exact (empty_not_ticker Hn). }
  apply in_TICKERS_four in Hn. rewrite E, Hn. reflexivity.
Qed.

Lemma valid_or_invalid (form : gmap string string) :
  invalid_ticker form
  \/ exists name, form !! "index"%string = Some name /\ name ∈ four_tickers.
Proof.
  unfold invalid_ticker.
  destruct (form !! "index"%string) as [s|]; [|auto].
  destruct (in_TICKERS s) eqn:E.
  - right. exists s. split; [reflexivity|]. apply in_TICKERS_four, E.
  - left. right. right. exists s. split; [reflexivity|].
    intros Hs. apply in_TICKERS_four in Hs. congruence.
Qed.

(** C8.  The handler answers 400 exactly when the ticker field is
    missing, empty or none of the four tickers, and then the analysis
    is not run.  For one of the four tickers the analysis is run, once
    and on that ticker, and the results page made from what it returns
    is the response, with status 200. *)
Theorem analyze_400_iff_invalid (form : gmap string string) :
  ((exists r, (handler form).2 = Ok r /\ status r = 400%Z)
   <-> invalid_ticker form)
  /\ (invalid_ticker form -> handler form = ([], Ok invalid_index))
  /\ (forall name result,
        form !! "index"%string = Some name -> name ∈ four_tickers ->
        analyze_index_for_web name = Ok result ->
        handler form
        = ([name], Ok {| body := render_results result; status := 200 |})).
Proof.
  split; [|split].
  - split.
    + intros (r & Hr & Hs).
      destruct (valid_or_invalid form) as [H|(name & H & Hn)]; [exact H|].
      rewrite (analyze_valid form name H Hn) in Hr. cbn [snd] in Hr.
      destruct (analyze_index_for_web name); cbn [mbind result_bind] in Hr;
        [|discriminate].
      injection Hr as <-. cbn in Hs. discriminate.
    + intros H. rewrite (analyze_invalid form H).
      exists invalid_index. split; reflexivity.
  - apply analyze_invalid.
  - intros name result H Hn Hr.
    rewrite (analyze_valid form name H Hn), Hr. reflexivity.
Qed.

End AppProperties.

Lemma analyze_400_iff_invalid_witness :
  analyze nat (fun _ => Ok 7%nat) (fun _ => "results"%string)
          {[ "index"%string := "DJIA"%string ]}
  = (["DJIA"%string], Ok {| body := "results"; status := 200 |}).
Proof.
  pose proof (analyze_400_iff_invalid nat (fun _ => Ok 7%nat)
                (fun _ => "results"%string)
                {[ "index"%string := "DJIA"%string ]}) as (_ & _ & H).
  apply (H "DJIA"%string 7%nat).
  - apply lookup_singleton_eq.
  - unfold four_tickers. apply list_elem_of_In. left. reflexivity.
  - reflexivity.
Defined.

(** * Further properties of the code *)

(** ** Columns of a frame *)

Lemma lookup_assign_eq (name : string) (s : list float64)
  (cols : list (string * list float64)) :
  lookup_column name (assign_column name s cols) = Some s.
Proof.
  induction cols as [|[k v] cols IH]; cbn [assign_column lookup_column].
  - now rewrite String.eqb_refl.
  - destruct (String.eqb k name) eqn:E; cbn [lookup_column]; now rewrite E.
Qed.

Lemma lookup_assign_ne (name other : string) (s : list float64)
  (cols : list (string * list float64)) :
  other <> name ->
  lookup_column other (assign_column name s cols) = lookup_column other cols.
Proof.
  intros Hne.
  assert (Hn : String.eqb name other = false)
    by (apply String.eqb_neq; congruence).
  induction cols as [|[k v] cols IH]; cbn [assign_column lookup_column].
  - now rewrite Hn.
  - destruct (String.eqb k name) eqn:E; cbn [lookup_column].
    + apply String.eqb_eq in E. subst k. now rewrite Hn.
    + now rewrite IH.
Qed.

Lemma assign_assign (name : string) (s s' : list float64)
  (cols : list (string * list float64)) :
  assign_column name s' (assign_column name s cols) = assign_column name s' cols.
Proof.
  induction cols as [|[k v] cols IH]; cbn [assign_column].
  - now rewrite String.eqb_refl.
  - destruct (String.eqb k name) eqn:E; cbn [assign_column]; rewrite E;
      [reflexivity|now rewrite IH].
Qed.

Lemma lookup_column_map (f : list float64 -> list float64) (name : string)
  (cols : list (string * list float64)) :
  lookup_column name (map (fun c => (c.1, f c.2)) cols)
  = f <$> lookup_column name cols.
Proof.
  induction cols as [|[k v] cols IH]; [reflexivity|].
  cbn [map lookup_column fst snd].
  destruct (String.eqb k name); [reflexivity|exact IH].
Qed.

Lemma length_shift1 (s : list float64) : length (shift1 s) = length s.
Proof. unfold shift1. rewrite length_take. cbn [length]. lia. Qed.

Lemma length_delta (close : list float64) :
  length (series_sub (np_log close) (np_log (shift1 close))) = length close.
Proof.
  unfold series_sub, np_log.
  rewrite length_zip_with, !length_map, length_shift1. lia.
Qed.

Lemma head_delta (close : list float64) :
  close <> [] ->
  head (series_sub (np_log close) (np_log (shift1 close))) = Some NaN.
Proof.
  destruct close as [|c close]; [congruence|]. intros _.
  unfold series_sub, np_log, shift1. cbn [length take map zip_with head].
  destruct (np_log1 c); reflexivity.
Qed.

(** [compute_daily_price_change] on any frame.  Without a column Close
    it raises KeyError.  With one it returns the frame with the column
    Delta assigned: Delta is as long as Close and starts with NaN, the
    index and every column other than Delta are as before. *)
Theorem compute_daily_price_change_effect (df : DataFrame) :
  (lookup_column "Close" (columns df) = None ->
   compute_daily_price_change df = Raise (KeyError "Close"))
  /\ (forall close : list float64,
        lookup_column "Close" (columns df) = Some close ->
        exists (df' : DataFrame) (delta : list float64),
          compute_daily_price_change df = Ok df'
          /\ index df' = index df
          /\ getitem df' "Delta" = Ok delta
          /\ length delta = length close
          /\ (close <> [] -> head delta = Some NaN)
          /\ forall name : string,
               name <> "Delta"%string -> getitem df' name = getitem df name).
Proof.
  unfold compute_daily_price_change, getitem. split.
  - intros H. rewrite H. reflexivity.
  - intros close H. rewrite H. cbn [mbind result_bind].
    eexists. exists (series_sub (np_log close) (np_log (shift1 close))).
    split; [reflexivity|]. split; [reflexivity|].
    cbn [setitem columns]. rewrite lookup_assign_eq.
    split; [reflexivity|]. split; [apply length_delta|].
    split; [apply head_delta|].
    intros name Hne. now rewrite lookup_assign_ne.
Qed.

Lemma compute_daily_price_change_effect_witness :
  exists (df' : DataFrame) (delta : list float64),
    compute_daily_price_change
      {| index := [0; 1]%Z;
         columns := [("Open"%string, [Fin 1; Fin 2]);
                     ("Close"%string, [Fin 1; Fin 3])] |} = Ok df'
    /\ index df' = [0; 1]%Z
    /\ getitem df' "Delta" = Ok delta
    /\ length delta = 2%nat
    /\ ([Fin 1; Fin 3] <> [] -> head delta = Some NaN)
    /\ forall name : string,
         name <> "Delta"%string ->
         getitem df' name
         = getitem {| index := [0; 1]%Z;
                      columns := [("Open"%string, [Fin 1; Fin 2]);
                                  ("Close"%string, [Fin 1; Fin 3])] |} name.
Proof.
  apply (proj2 (compute_daily_price_change_effect
                  {| index := [0; 1]%Z;
                     columns := [("Open"%string, [Fin 1; Fin 2]);
                                 ("Close"%string, [Fin 1; Fin 3])] |})
               [Fin 1; Fin 3]).
  reflexivity.
Defined.

(** ** dropna *)

Lemma below_refl (bs : list bool) : below bs bs.
Proof. induction bs; constructor; auto. Qed.

Lemma below_trans (a b c : list bool) : below a b -> below b c -> below a c.
Proof.
  intros Hab. revert c. induction Hab as [|m b ms bs Hm _ IH]; intros c Hbc.
  - constructor.
  - inversion Hbc; subst. constructor; auto.
Qed.

Lemma below_zip_l (a b : list bool) : below (zip_with andb a b) a.
Proof.
  revert b. induction a as [|x a IH]; intros [|y b]; cbn; try constructor.
  - intros H. now apply andb_true_iff in H.
  - apply IH.
Qed.

Lemma below_zip_r (a b : list bool) : below (zip_with andb a b) b.
Proof.
  revert b. induction a as [|x a IH]; intros [|y b]; cbn; try constructor.
  - intros H. now apply andb_true_iff in H.
  - apply IH.
Qed.

Lemma row_mask_below_index (df : DataFrame) :
  below (row_mask df) (repeat true (length (index df))).
Proof.
  unfold row_mask. induction (columns df) as [|c cols IH]; cbn [foldr].
  - apply below_refl.
  - eapply below_trans; [apply below_zip_r|exact IH].
Qed.

Lemma row_mask_below_column (df : DataFrame) (c : string * list float64) :
  c ∈ columns df -> below (row_mask df) (map notna c.2).
Proof.
  unfold row_mask. induction (columns df) as [|c' cols IH]; intros Hc.
  - inversion Hc.
  - cbn [foldr]. apply elem_of_cons in Hc as [->|Hc].
    + apply below_zip_l.
    + eapply below_trans; [apply below_zip_r|apply IH, Hc].
Qed.

Lemma keep_notna (mask : list bool) (c : list float64) :
  below mask (map notna c) ->
  map notna (keep mask c) = repeat true (kept mask).
Proof.
  unfold kept. revert c. induction mask as [|m mask IH]; intros c H.
  - reflexivity.
  - destruct c as [|v c]; inversion H as [|? ? ? ? Hm Hb]; subst.
    destruct m; cbn [keep List.filter length repeat map].
    + rewrite (Hm eq_refl), (IH c Hb). reflexivity.
    + apply IH, Hb.
Qed.

Lemma length_keep {A : Type} (mask : list bool) (l : list A) :
  below mask (repeat true (length l)) -> length (keep mask l) = kept mask.
Proof.
  unfold kept. revert l. induction mask as [|m mask IH]; intros l H.
  - reflexivity.
  - destruct l as [|x l]; inversion H as [|? ? ? ? _ Hb]; subst.
    destruct m; cbn [keep List.filter length]; rewrite (IH l Hb); reflexivity.
Qed.

Lemma keep_all_true {A : Type} (l : list A) (k : nat) :
  length l = k -> keep (repeat true k) l = l.
Proof. intros <-. apply keep_all. Qed.

Lemma all_true_mask (k : nat) (cols : list (string * list float64)) :
  Forall (fun c => map notna c.2 = repeat true k) cols ->
  foldr (fun c acc => zip_with andb (map notna c.2) acc) (repeat true k) cols
  = repeat true k.
Proof.
  induction 1 as [|c cols Hc _ IH]; cbn [foldr]; [reflexivity|].
  rewrite IH, Hc. apply andb_repeat_true.
Qed.

Lemma dropna_columns_notna (df : DataFrame) :
  Forall (fun c => map notna c.2 = repeat true (kept (row_mask df)))
         (columns (dropna df)).
Proof.
  unfold dropna. cbn [columns]. apply Forall_fmap, Forall_forall.
  intros c Hc. cbn [snd]. apply keep_notna, row_mask_below_column, Hc.
Qed.

Lemma row_mask_dropna (df : DataFrame) :
  row_mask (dropna df) = repeat true (kept (row_mask df)).
Proof.
  unfold row_mask at 1.
  replace (length (index (dropna df))) with (kept (row_mask df))
    by (symmetry; apply length_keep, row_mask_below_index).
  apply all_true_mask, dropna_columns_notna.
Qed.

Lemma notna_all_true (c : list float64) (k : nat) :
  map notna c = repeat true k ->
  length c = k /\ Forall (fun v => notna v = true) c.
Proof.
  revert k. induction c as [|v c IH]; intros [|k] H; try discriminate.
  - split; [reflexivity|constructor].
  - cbn in H. injection H as Hv Hc. destruct (IH k Hc) as [<- HF].
    split; [reflexivity|]. constructor; assumption.
Qed.

(** [dropna] on any frame.  The result has the columns of the frame, by
    name and in order; no column of it holds NaN; index and columns all
    have the length of the rows kept; and dropping again changes
    nothing. *)
Theorem dropna_invariants (df : DataFrame) :
  map fst (columns (dropna df)) = map fst (columns df)
  /\ nan_free (dropna df)
  /\ aligned (dropna df)
  /\ length (index (dropna df)) = kept (row_mask df)
  /\ dropna (dropna df) = dropna df.
Proof.
  pose proof (dropna_columns_notna df) as Hcols.
  assert (Hidx : length (index (dropna df)) = kept (row_mask df))
    by apply length_keep, row_mask_below_index.
  split; [|split; [|split; [|split]]].
  - unfold dropna. cbn [columns]. rewrite map_map. reflexivity.
  - unfold nan_free. eapply Forall_impl; [exact Hcols|].
    intros c Hc. apply (notna_all_true _ _ Hc).
  - unfold aligned. rewrite Hidx. eapply Forall_impl; [exact Hcols|].
    intros c Hc. apply (notna_all_true _ _ Hc).
  - exact Hidx.
  - unfold dropna at 1. rewrite row_mask_dropna.
    rewrite (keep_all_true _ _ Hidx).
    destruct (dropna df) as [idx cols] eqn:E. cbn [index columns] in *.
    f_equal. rewrite <- (map_id cols) at 2.
    apply map_ext_Forall. eapply Forall_impl; [exact Hcols|].
    intros [k c] Hc. cbn [fst snd] in *.
    rewrite (keep_all_true c _ (proj1 (notna_all_true _ _ Hc))). reflexivity.
Qed.

(** ** The engine on any frame *)

Lemma lookup_column_elem (name : string) (s : list float64)
  (cols : list (string * list float64)) :
  lookup_column name cols = Some s -> (name, s) ∈ cols.
Proof.
  induction cols as [|[k v] cols IH]; cbn [lookup_column]; [discriminate|].
  destruct (String.eqb k name) eqn:E; intros H.
  - apply String.eqb_eq in E. injection H as <-. subst k. apply list_elem_of_here.
  - apply list_elem_of_further, IH, H.
Qed.

Lemma main_z_scores_Close (df : DataFrame) (close : list float64) :
  lookup_column "Close" (columns df) = Some close ->
  let df1 :=
    dropna (setitem df "Delta"
              (series_sub (np_log close) (np_log (shift1 close)))) in
  exists delta : list float64,
    getitem df1 "Delta" = Ok delta
    /\ main_z_scores df = Ok (setitem df1 "Z-Score" (z_score delta)).
Proof.
  intros H df1.
  set (d := series_sub (np_log close) (np_log (shift1 close))) in *.
  set (mask := row_mask (setitem df "Delta" d)).
  assert (Hd : getitem df1 "Delta" = Ok (keep mask d)).
  { unfold getitem, df1, dropna. cbn [columns setitem]. fold mask.
    rewrite (lookup_column_map (keep mask)), lookup_assign_eq. reflexivity. }
  exists (keep mask d). split; [exact Hd|].
  assert (Hc : compute_daily_price_change df = Ok (setitem df "Delta" d)).
  { unfold compute_daily_price_change, getitem. rewrite H. reflexivity. }
  unfold main_z_scores. rewrite Hc. cbn [mbind result_bind].
  fold df1. rewrite Hd. reflexivity.
Qed.

(** Lines 150-156 of [main] on any frame.  The only failure is the
    KeyError of a frame without a column Close.  Otherwise the frame
    returned has the columns Delta and Z-Score, of the length of its
    index; no return in Delta is NaN, so that none is skipped by the
    mean and the standard deviation; and Z-Score is [z_score] of that
    Delta. *)
Theorem main_z_scores_outcome (df : DataFrame) :
  (forall e : exn,
     main_z_scores df = Raise e <->
     lookup_column "Close" (columns df) = None /\ e = KeyError "Close")
  /\ (forall close : list float64,
        lookup_column "Close" (columns df) = Some close ->
        exists (df' : DataFrame) (delta : list float64),
          main_z_scores df = Ok df'
          /\ getitem df' "Delta" = Ok delta
          /\ getitem df' "Z-Score" = Ok (z_score delta)
          /\ Forall (fun v => notna v = true) delta
          /\ length delta = length (index df')
          /\ length (z_score delta) = length (index df')).
Proof.
  assert (Hok : forall close : list float64,
            lookup_column "Close" (columns df) = Some close ->
            exists (df' : DataFrame) (delta : list float64),
              main_z_scores df = Ok df'
              /\ getitem df' "Delta" = Ok delta
              /\ getitem df' "Z-Score" = Ok (z_score delta)
              /\ Forall (fun v => notna v = true) delta
              /\ length delta = length (index df')
              /\ length (z_score delta) = length (index df')).
  { intros close H.
    destruct (main_z_scores_Close df close H) as (delta & Hd & Hm).
    set (df1 := dropna (setitem df "Delta"
                  (series_sub (np_log close) (np_log (shift1 close))))) in *.
    destruct (dropna_invariants
                (setitem df "Delta"
                   (series_sub (np_log close) (np_log (shift1 close)))))
      as (_ & Hnan & Hal & _ & _).
    fold df1 in Hnan, Hal.
    assert (Hin : ("Delta"%string, delta) ∈ columns df1).
    { apply lookup_column_elem. unfold getitem in Hd.
      destruct (lookup_column "Delta" (columns df1)); congruence. }
    unfold nan_free in Hnan. unfold aligned in Hal.
    rewrite Forall_forall in Hnan, Hal.
    specialize (Hnan _ Hin). specialize (Hal _ Hin). cbn [snd] in *.
    eexists. exists delta. split; [exact Hm|].
    unfold getitem. cbn [setitem columns index].
    rewrite lookup_assign_ne by discriminate. fold (getitem df1 "Delta").
    rewrite Hd, lookup_assign_eq.
    repeat split; try assumption.
    unfold z_score. rewrite length_map. exact Hal. }
  split; [|exact Hok].
  intros e. split.
  - intros He. destruct (lookup_column "Close" (columns df)) as [close|] eqn:H.
    + destruct (Hok close eq_refl) as (df' & ? & Hm & _). congruence.
    + unfold main_z_scores, compute_daily_price_change, getitem in He.
      rewrite H in He. cbn [mbind result_bind] in He.
      split; [reflexivity|congruence].
  - intros [H ->]. unfold main_z_scores, compute_daily_price_change, getitem.
    rewrite H. reflexivity.
Qed.

Lemma main_z_scores_outcome_witness :
  exists (df' : DataFrame) (delta : list float64),
    main_z_scores
      {| index := [0; 1; 2]%Z;
         columns := [("Open"%string, [Fin 1; NaN; Fin 2]);
                     ("Close"%string, [Fin 1; Fin 3; Fin 2])] |} = Ok df'
    /\ getitem df' "Delta" = Ok delta
    /\ getitem df' "Z-Score" = Ok (z_score delta)
    /\ Forall (fun v => notna v = true) delta
    /\ length delta = length (index df')
    /\ length (z_score delta) = length (index df').
Proof.
  apply (proj2 (main_z_scores_outcome
                  {| index := [0; 1; 2]%Z;
                     columns := [("Open"%string, [Fin 1; NaN; Fin 2]);
                                 ("Close"%string, [Fin 1; Fin 3; Fin 2])] |})
               [Fin 1; Fin 3; Fin 2]).
  reflexivity.
Defined.

(** ** Returns add up *)





(** ** Observed counts *)

Lemma number_exceeding_le (t : R) (zs : list float64) :
  (number_exceeding t zs <= length zs)%nat.
Proof. unfold number_exceeding. apply length_filter. Qed.

(** Every row of the report counts between 0 and [total_days] entries,
    and for a non-empty series its observed percentage is a number
    between 0 and 100. *)
Theorem observed_within_total (zs : list float64) (r : stats_row) :
  r ∈ compute_distribution_stats zs ->
  (0 <= observed_count r <= Z.of_nat (length zs))%Z
  /\ (zs <> [] -> exists q, observed_pct r = Fin q /\ 0 <= q <= 100).
Proof.
  unfold compute_distribution_stats. intros Hr.
  apply list_elem_of_fmap in Hr as (t & -> & _).
  pose proof (number_exceeding_le (IZR t) zs) as Hle.
  split.
  - cbn [observed_count stats_for]. rewrite count_above_number. lia.
  - intros Hne. rewrite (stats_for_nonempty zs t Hne). cbn [observed_pct].
    eexists. split; [reflexivity|].
    pose proof (INR_length_pos zs Hne) as Hn.
    apply le_INR in Hle. pose proof (pos_INR (number_exceeding (IZR t) zs)) as Hk.
    set (k := INR (number_exceeding (IZR t) zs)) in *.
    set (n := INR (length zs)) in *.
    assert (Hq : 0 <= k / n <= 1).
    { split.
      - apply Rmult_le_pos; [exact Hk|]. left. apply Rinv_0_lt_compat, Hn.
      - apply (Rmult_le_reg_r n); [exact Hn|]. 
        replace (k / n * n) with k by (field; lra). lra. }
    lra.
Qed.

Lemma observed_within_total_witness :
  (0 <= observed_count (stats_for [Fin 3; NaN] 2) <= Z.of_nat (length [Fin 3; NaN]))%Z
  /\ ([Fin 3; NaN] <> [] ->
      exists q, observed_pct (stats_for [Fin 3; NaN] 2) = Fin q /\ 0 <= q <= 100).
Proof.
  apply (observed_within_total [Fin 3; NaN] (stats_for [Fin 3; NaN] 2)).
  unfold compute_distribution_stats. apply list_elem_of_fmap.
  exists 2%Z. split; [reflexivity|].
  unfold thresholds. apply list_elem_of_In. right. left. reflexivity.
Defined.

Lemma fgt_abs_neg (a b : float64) : fgt (fabs (fneg a)) b = fgt (fabs a) b.
Proof. destruct a; cbn [fneg fabs]; [rewrite Rabs_Ropp|..]; reflexivity. Qed.

(** A NaN z-score is a day of [total_days] but is counted above no
    threshold, and the counts do not see the sign of the z-scores. *)
Theorem count_above_blind (zs : list float64) (t : Z) :
  count_above zs t = count_above (valid zs) t
  /\ count_above (map fneg zs) t = count_above zs t
  /\ (Forall (fun z => z = NaN) zs -> count_above zs t = 0%Z).
Proof.
  unfold count_above, series_abs, valid.
  split; [|split].
  - induction zs as [|z zs IH]; [reflexivity|].
    cbn [map sum_true foldr List.filter].
    change (foldr _ 0%Z ?l) with (sum_true l) in *.
    destruct z; cbn [notna isnan negb map sum_true foldr];
      change (foldr _ 0%Z ?l) with (sum_true l); rewrite IH; reflexivity.
  - induction zs as [|z zs IH]; [reflexivity|].
    cbn [map sum_true foldr].
    change (foldr _ 0%Z ?l) with (sum_true l) in *.
    rewrite IH, fgt_abs_neg. reflexivity.
  - induction 1 as [|z zs -> _ IH]; [reflexivity|].
    cbn [map sum_true foldr fabs fgt].
    change (foldr _ 0%Z ?l) with (sum_true l) in *.
    rewrite IH. reflexivity.
Qed.

Lemma count_above_blind_witness :
  count_above [NaN; NaN] 1 = 0%Z.
Proof.
  apply (count_above_blind [NaN; NaN] 1). repeat constructor.
Defined.

(** ** Few z-scores are large *)

Lemma exceeds_square (t z : R) : 0 <= t -> exceeds t (Fin z) -> t * t <= z * z.
Proof.
  cbn. intros Ht H. unfold Rabs in H. destruct (Rcase_abs z); nra.
Qed.

Lemma number_exceeding_squares (t : R) (zl : list R) :
  0 <= t ->
  INR (number_exceeding t (map Fin zl)) * (t * t)
  <= Rsum (map (fun z => z * z) zl).
Proof.
  intros Ht. unfold number_exceeding, Rsum.
  induction zl as [|z zl IH]; [cbn; lra|].
  cbn [map foldr]. rewrite filter_cons.
  destruct (decide (exceeds t (Fin z))) as [H|H].
  - cbn [length]. rewrite S_INR. pose proof (exceeds_square t z Ht H). lra.
  - pose proof (Rle_0_sqr z) as Hz. unfold Rsqr in Hz. lra.
Qed.

(** The squares of the z-scores of a series that is not constant add up
    to the number of entries minus one. *)
Lemma normalized_squares (r : list R) :
  ~ all_identical r ->
  exists zl : list R,
    normalized r = map Fin zl
    /\ Rsum (map (fun z => z * z) zl) = INR (length r) - 1.
Proof.
  intros Hr.
  destruct (sample_stddev_positive r Hr) as (s & Hs & Es & Hss).
  destruct (sum_sq_dev_positive r Hr) as [Hpos Hlen].
  assert (Hn2 : 2 <= INR (length r)) by (apply le_INR in Hlen; simpl in Hlen; lra).
  set (m := arithmetic_mean r) in *.
  exists (map (fun x => (x - m) / s) r). split.
  - unfold normalized. rewrite Es, map_map. apply map_ext. intros x.
    apply fdiv_Fin. lra.
  - rewrite map_map.
    rewrite (Rsum_ext _ (fun x => (x - m) * (x - m) / (s * s)))
      by (intros; field; lra).
    rewrite Rsum_div. fold m in Hss. unfold sum_sq_dev in Hss. fold m in Hss.
    rewrite Hss. unfold sum_sq_dev in Hpos. fold m in Hpos.
    field. split; lra.
Qed.

(** The z-scores the engine makes from positive prices with returns
    that are not all identical satisfy Chebyshev's bound: the number of
    them above a threshold [t > 0] in absolute value, times [t * t], is
    at most their number minus one. *)
Theorem observed_count_chebyshev (dates : list date) (p : list R) (t : Z) :
  length dates = length p -> (2 <= length p)%nat -> positive_prices p ->
  ~ all_identical (log_returns p) -> (0 < t)%Z ->
  exists (df : DataFrame) (zs : list float64),
    main_z_scores (price_frame dates (map Fin p)) = Ok df
    /\ getitem df "Z-Score" = Ok zs
    /\ IZR (count_above zs t) * (IZR t * IZR t) <= INR (length zs) - 1.
Proof.
  intros Hd Hn Hp Hr Ht.
  eexists. exists (normalized (log_returns p)).
  split; [apply main_z_scores_positive; assumption|].
  split; [reflexivity|].
  destruct (normalized_squares _ Hr) as (zl & Hz & Hsq).
  rewrite count_above_number, <- INR_IZR_INZ.
  assert (Hl : length (normalized (log_returns p)) = length (log_returns p))
    by (unfold normalized; apply length_map).
  rewrite Hl, <- Hsq, Hz.
  apply number_exceeding_squares. apply IZR_le. lia.
Qed.

Lemma log_returns_not_identical : ~ all_identical (log_returns [1; exp 1; exp 3]).
Proof.
  rewrite log_returns_1_2. intros H.
  assert (E : 1 = 2).
  { apply H; apply list_elem_of_In; [left|right; left]; reflexivity. }
  lra.
Qed.

Lemma observed_count_chebyshev_witness :
  exists (df : DataFrame) (zs : list float64),
    main_z_scores (price_frame [0; 1; 2]%Z (map Fin [1; exp 1; exp 3])) = Ok df
    /\ getitem df "Z-Score" = Ok zs
    /\ IZR (count_above zs 1) * (IZR 1 * IZR 1) <= INR (length zs) - 1.
Proof.
  apply (observed_count_chebyshev [0; 1; 2]%Z [1; exp 1; exp 3] 1).
  - reflexivity.
  - simpl. lia.
  - exact exp_1_2_positive.
  - exact log_returns_not_identical.
  - lia.
Defined.

(** ** Expected counts *)

Lemma norm_pdf_pos (t : R) : 0 < norm_pdf t.
Proof.
  unfold norm_pdf. apply Rdiv_lt_0_compat; [apply exp_pos|].
  apply sqrt_lt_R0. pose proof PI_RGT_0. lra.
Qed.

Lemma norm_cdf_monotone (x y : R) : x <= y -> norm_cdf x <= norm_cdf y.
Proof.
  intros Hxy. unfold norm_cdf.
  set (I := integrable_of_continuity norm_pdf norm_pdf_continuity).
  rewrite <- (RiemannInt_P26 (I 0 x) (I x y) (I 0 y)).
  assert (H0 : 0 <= RiemannInt (I x y)).
  { rewrite <- (Rmult_0_l (y - x)), <- (RiemannInt_P15 (RiemannInt_P14 x y 0)).
    apply RiemannInt_P19; [exact Hxy|].
    intros t _. unfold fct_cte. left. apply norm_pdf_pos. }
  lra.
Qed.

(** The expected percentage and the expected count of a row do not
    increase with the threshold, and from threshold 0 on they are at
    most 100 and [total_days]. *)
Theorem expected_antitone (zs : list float64) (t1 t2 : Z) :
  (0 <= t1 <= t2)%Z ->
  exists q1 q2 c1 c2 : R,
    expected_pct (stats_for zs t1) = Fin q1
    /\ expected_pct (stats_for zs t2) = Fin q2
    /\ expected_count (stats_for zs t1) = Fin c1
    /\ expected_count (stats_for zs t2) = Fin c2
    /\ q2 <= q1 <= 100
    /\ c2 <= c1 <= INR (length zs).
Proof.
  intros [H1 H2]. cbn [expected_pct expected_count stats_for fmul fsub fadd fneg of_int].
  do 4 eexists. repeat (split; [reflexivity|]).
  rewrite <- INR_IZR_INZ.
  pose proof (pos_INR (length zs)) as Hn.
  pose proof (norm_cdf_monotone (IZR t1) (IZR t2) (IZR_le _ _ H2)) as Hm.
  pose proof (norm_cdf_monotone 0 (IZR t1) (IZR_le 0 _ H1)) as H0.
  rewrite norm_cdf_0 in H0.
  set (n := INR (length zs)) in *.
  set (a := norm_cdf (IZR t1)) in *. set (b := norm_cdf (IZR t2)) in *.
  split; [lra|]. split; nra.
Qed.

Lemma expected_antitone_witness :
  exists q1 q2 c1 c2 : R,
    expected_pct (stats_for [Fin 3; NaN] 1) = Fin q1
    /\ expected_pct (stats_for [Fin 3; NaN] 2) = Fin q2
    /\ expected_count (stats_for [Fin 3; NaN] 1) = Fin c1
    /\ expected_count (stats_for [Fin 3; NaN] 2) = Fin c2
    /\ q2 <= q1 <= 100
    /\ c2 <= c1 <= INR (length [Fin 3; NaN]).
Proof. apply (expected_antitone [Fin 3; NaN] 1 2). lia. Defined.

(** ** Calling compute_daily_price_change again *)

(** [compute_daily_price_change] returns the reference it was given,
    touches no other object, and a second call on that reference leaves
    the store as the first call left it. *)
Theorem compute_daily_price_change_ref_again
  (a b : positive) (σ σ' : gmap positive DataFrame) :
  compute_daily_price_change_ref a σ = Ok (b, σ') ->
  b = a
  /\ compute_daily_price_change_ref a σ' = Ok (a, σ')
  /\ forall c : positive, c <> a -> σ' !! c = σ !! c.
Proof.
  unfold compute_daily_price_change_ref, deref. intros H.
  destruct (σ !! a) as [df|] eqn:Ha; [|discriminate].
  cbn [mbind result_bind] in H.
  unfold compute_daily_price_change, getitem in H.
  destruct (lookup_column "Close" (columns df)) as [close|] eqn:Hc;
    [|discriminate].
  cbn [mbind result_bind] in H. injection H as <- <-.
  split; [reflexivity|]. split.
  - rewrite lookup_insert_eq. cbn [mbind result_bind].
    unfold compute_daily_price_change, getitem. cbn [setitem columns].
    rewrite lookup_assign_ne by discriminate. rewrite Hc.
    cbn [mbind result_bind]. unfold setitem. cbn [index columns].
    rewrite assign_assign, insert_insert_eq. reflexivity.
  - intros c Hca. rewrite lookup_insert_ne by congruence. reflexivity.
Qed.

Lemma compute_daily_price_change_ref_again_witness :
  exists σ' : gmap positive DataFrame,
    compute_daily_price_change_ref 1 σ' = Ok (1%positive, σ')
    /\ forall c : positive, c <> 1%positive ->
         σ' !! c
         = ({[ 1%positive := price_frame [0; 1]%Z [Fin 1; Fin 2] ]}
              : gmap positive DataFrame) !! c.
Proof.
  eexists.
  apply (compute_daily_price_change_ref_again 1 1
           {[ 1%positive := price_frame [0; 1]%Z [Fin 1; Fin 2] ]}).
  unfold compute_daily_price_change_ref, deref.
  rewrite lookup_singleton_eq. cbn [mbind result_bind].
  rewrite compute_daily_price_change_price_frame. reflexivity.
Defined.

(** ** Paths *)

Example TICKERS_of_items : TICKERS = list_to_map TICKERS_items.
Proof. reflexivity. Qed.

Lemma list_ascii_of_append (s1 s2 : string) :
  String.list_ascii_of_string (s1 +:+ s2)
  = String.list_ascii_of_string s1 ++ String.list_ascii_of_string s2.
Proof.
  induction s1 as [|a s1 IH]; [reflexivity|].
  change (a :: String.list_ascii_of_string (s1 +:+ s2)
          = a :: (String.list_ascii_of_string s1 ++ String.list_ascii_of_string s2)).
  now rewrite IH.
Qed.

Lemma append_inj_l (s1 s2 r : string) : s1 +:+ r = s2 +:+ r -> s1 = s2.
Proof.
  intros H. apply (f_equal String.list_ascii_of_string) in H.
  rewrite !list_ascii_of_append in H. apply app_inv_tail in H.
  apply (f_equal String.string_of_list_ascii) in H.
  now rewrite !String.string_of_list_ascii_of_string in H.
Qed.

Lemma append_inj_r (r s1 s2 : string) : r +:+ s1 = r +:+ s2 -> s1 = s2.
Proof.
  induction r as [|a r IH]; [tauto|].
  change (String a (r +:+ s1) = String a (r +:+ s2) -> s1 = s2).
  intros H. injection H as H. exact (IH H).
Qed.

Lemma plot_file_ticker (today t1 t2 : string) :
  plot_file today t1 = plot_file today t2 -> t1 = t2.
Proof.
  unfold plot_file. intros H. apply append_inj_r in H.
  exact (append_inj_l _ _ _ H).
Qed.

Lemma plot_file_day (d1 d2 ticker : string) :
  plot_file d1 ticker = plot_file d2 ticker -> d1 = d2.
Proof.
  unfold plot_file. intros H. do 3 apply append_inj_r in H.
  exact (append_inj_l _ _ _ H).
Qed.

Lemma cache_file_ticker (t1 t2 period : string) :
  cache_file t1 period = cache_file t2 period -> t1 = t2.
Proof.
  unfold cache_file. intros H. apply append_inj_r in H.
  exact (append_inj_l _ _ _ H).
Qed.

(** ** Saving a plot and serving it *)

Example plot_rule_examples :
  plot_rule_matches "DJIA" = true
  /\ plot_rule_matches "TEST_INDEX" = true
  /\ plot_rule_matches "" = false
  /\ plot_rule_matches "a/b" = false
  /\ plot_rule_matches "DJIA/" = false.
Proof. repeat split; reflexivity. Qed.

(** The plot [plot_z_scores] saves under a name that the rule of
    [/plot/<index_name>] matches is what the request answers on the
    same day, with status 200, whether or not the name is one of the
    four tickers; the answers for another day and for another name are
    not changed by it.  A name the rule does not match, the empty one or
    one with a slash, is answered 404 whatever the files are. *)
Theorem plot_then_serve
  (savefig : list date -> list float64 -> string -> string)
  (today page ticker : string) (df : DataFrame) (zs : list float64)
  (w : world) :
  getitem df "Z-Score" = Ok zs ->
  plot_rule_matches ticker = true ->
  contains_slash today = false ->
  exists w' : world,
    plot_z_scores savefig today df ticker w = (w', Ok tt)
    /\ serve_plot today page ticker w'
       = {| body := savefig (index df) zs ticker; status := 200 |}
    /\ (forall day : string,
          day <> today -> contains_slash day = false ->
          serve_plot day page ticker w' = serve_plot day page ticker w)
    /\ (forall other : string,
          other <> ticker ->
          serve_plot today page other w' = serve_plot today page other w)
    /\ (forall name : string,
          plot_rule_matches name = false ->
          serve_plot today page name w' = {| body := page; status := 404 |}).
Proof.
  intros Hz Hrule _. unfold plot_z_scores. rewrite Hz.
  eexists. split; [reflexivity|].
  unfold serve_plot, write_file. cbn [files]. split; [|split; [|split]].
  - now rewrite Hrule, lookup_insert_eq.
  - intros day Hd _. rewrite lookup_insert_ne; [reflexivity|].
    intros E. apply plot_file_day in E. congruence.
  - intros other Ho. rewrite lookup_insert_ne; [reflexivity|].
    intros E. apply plot_file_ticker in E. congruence.
  - intros name ->. reflexivity.
Qed.

Lemma plot_then_serve_witness :
  exists w' : world,
    plot_z_scores (fun _ _ _ => "png"%string) "2025-11-08"
      {| index := [1]%Z; columns := [("Z-Score"%string, [NaN])] |} "TEST_INDEX"
      empty_world
    = (w', Ok tt)
    /\ serve_plot "2025-11-08" "Not Found" "TEST_INDEX" w'
       = {| body := "png"; status := 200 |}
    /\ (forall day : string,
          day <> "2025-11-08"%string -> contains_slash day = false ->
          serve_plot day "Not Found" "TEST_INDEX" w'
          = serve_plot day "Not Found" "TEST_INDEX" empty_world)
    /\ (forall other : string,
          other <> "TEST_INDEX"%string ->
          serve_plot "2025-11-08" "Not Found" other w'
          = serve_plot "2025-11-08" "Not Found" other empty_world)
    /\ (forall name : string,
          plot_rule_matches name = false ->
          serve_plot "2025-11-08" "Not Found" name w'
          = {| body := "Not Found"; status := 404 |}).
Proof.
  apply (plot_then_serve (fun _ _ _ => "png"%string) "2025-11-08" "Not Found"
           "TEST_INDEX"
           {| index := [1]%Z; columns := [("Z-Score"%string, [NaN])] |} [NaN]).
  - reflexivity.
  - reflexivity.
  - reflexivity.
Defined.

(** ** The price cache *)

Section RunProperties.

Variable history : string -> string -> result DataFrame.
Variable to_csv : DataFrame -> string.
Variable read_csv : string -> result DataFrame.
Variable savefig : list date -> list float64 -> string -> string.
Variable today : string.

Let fetch := fetch_historical_price_data history to_csv read_csv.

(** The first call for a (ticker, period) without a cache file asks the
    provider once and writes what it answers to the cache file; given
    that [read_csv] reads back what [to_csv] wrote, a second call asks
    nothing, writes nothing and has the outcome of the first, which is a
    frame of the one column Close, or the KeyError of an answer without
    that column. *)
Theorem fetch_then_cached
  (ticker period : string) (df : DataFrame) (w : world) :
  files w !! cache_file ticker period = None ->
  history ticker period = Ok df ->
  read_csv (to_csv df) = Ok df ->
  exists w1 : world,
    fetch ticker period w = (w1, select_Close df)
    /\ files w1 = <[cache_file ticker period := to_csv df]> (files w)
    /\ downloads w1 = downloads w ++ [(ticker, period)]
    /\ fetch ticker period w1 = (w1, select_Close df).
Proof.
  intros Hmiss Hh Hrt. unfold fetch, fetch_historical_price_data.
  rewrite Hmiss, Hh. eexists. split; [reflexivity|].
  split; [reflexivity|]. split; [reflexivity|].
  cbn [files write_file log_download]. rewrite lookup_insert_eq, Hrt.
  reflexivity.
Qed.

(** A download that fails is not cached: the exception leaves the call,
    no file is written, and the next call asks the provider again. *)
Theorem fetch_failure_not_cached
  (ticker period : string) (e : exn) (w : world) :
  files w !! cache_file ticker period = None ->
  history ticker period = Raise e ->
  exists w1 w2 : world,
    fetch ticker period w = (w1, Raise e)
    /\ files w1 = files w
    /\ fetch ticker period w1 = (w2, Raise e)
    /\ files w2 = files w
    /\ downloads w2 = downloads w ++ [(ticker, period); (ticker, period)].
Proof.
  intros Hmiss Hh. unfold fetch, fetch_historical_price_data.
  rewrite Hmiss, Hh. eexists. eexists. split; [reflexivity|].
  split; [reflexivity|]. cbn [files log_download]. rewrite Hmiss.
  split; [reflexivity|]. split; [reflexivity|].
  unfold log_download. cbn [downloads]. now rewrite <- app_assoc.
Qed.

(** With a cache file in place the provider is not asked and nothing is
    written, whatever the file holds; and a call for another ticker of
    the same period neither reads nor writes that file. *)
Theorem fetch_uses_cache
  (ticker period text : string) (w : world) :
  files w !! cache_file ticker period = Some text ->
  (fetch ticker period w).1 = w
  /\ forall other : string,
       other <> ticker ->
       files (fetch other period w).1 !! cache_file ticker period = Some text.
Proof.
  intros Hhit. unfold fetch, fetch_historical_price_data. split.
  - rewrite Hhit. reflexivity.
  - intros other Ho.
    assert (Hp : cache_file other period <> cache_file ticker period)
      by (intros E; apply cache_file_ticker in E; congruence).
    destruct (files w !! cache_file other period); [exact Hhit|].
    destruct (history other period); cbn [fst files write_file log_download];
      [|exact Hhit].
    rewrite lookup_insert_ne by exact Hp. exact Hhit.
Qed.

End RunProperties.

Lemma fetch_then_cached_witness :
  exists w1 : world,
    fetch_historical_price_data
      (fun _ _ => Ok (price_frame [0; 1]%Z [Fin 1; Fin 2]))
      (fun _ => "csv"%string)
      (fun _ => Ok (price_frame [0; 1]%Z [Fin 1; Fin 2]))
      "^DJI" "max" {| files := ∅; downloads := []; reports := [] |}
    = (w1, select_Close (price_frame [0; 1]%Z [Fin 1; Fin 2]))
    /\ files w1 = <[cache_file "^DJI" "max" := "csv"%string]> ∅
    /\ downloads w1 = [] ++ [("^DJI"%string, "max"%string)]
    /\ fetch_historical_price_data
         (fun _ _ => Ok (price_frame [0; 1]%Z [Fin 1; Fin 2]))
         (fun _ => "csv"%string)
         (fun _ => Ok (price_frame [0; 1]%Z [Fin 1; Fin 2]))
         "^DJI" "max" w1
       = (w1, select_Close (price_frame [0; 1]%Z [Fin 1; Fin 2])).
Proof.
  apply (fetch_then_cached
           (fun _ _ => Ok (price_frame [0; 1]%Z [Fin 1; Fin 2]))
           (fun _ => "csv"%string)
           (fun _ => Ok (price_frame [0; 1]%Z [Fin 1; Fin 2]))
           "^DJI" "max" (price_frame [0; 1]%Z [Fin 1; Fin 2])
           {| files := ∅; downloads := []; reports := [] |});
    reflexivity.
Defined.

Lemma fetch_failure_not_cached_witness :
  exists w1 w2 : world,
    fetch_historical_price_data
      (fun _ _ => Raise (Exception "offline")) (fun _ => "csv"%string)
      (fun _ => Raise (Exception "parse"))
      "^DJI" "max" {| files := ∅; downloads := []; reports := [] |}
    = (w1, Raise (Exception "offline"))
    /\ files w1 = ∅
    /\ fetch_historical_price_data
         (fun _ _ => Raise (Exception "offline")) (fun _ => "csv"%string)
         (fun _ => Raise (Exception "parse"))
         "^DJI" "max" w1
       = (w2, Raise (Exception "offline"))
    /\ files w2 = ∅
    /\ downloads w2
       = [] ++ [("^DJI"%string, "max"%string); ("^DJI"%string, "max"%string)].
Proof.
  apply (fetch_failure_not_cached
           (fun _ _ => Raise (Exception "offline")) (fun _ => "csv"%string)
           (fun _ => Raise (Exception "parse"))
           "^DJI" "max" (Exception "offline")
           {| files := ∅; downloads := []; reports := [] |});
    reflexivity.
Defined.

Lemma fetch_uses_cache_witness :
  (fetch_historical_price_data
     (fun _ _ => Raise (Exception "offline")) (fun _ => "csv"%string)
     (fun _ => Raise (Exception "parse"))
     "^DJI" "max"
     {| files := {[ cache_file "^DJI" "max" := "text"%string ]};
        downloads := []; reports := [] |}).1
  = {| files := {[ cache_file "^DJI" "max" := "text"%string ]};
       downloads := []; reports := [] |}.
Proof.
  apply (fetch_uses_cache
           (fun _ _ => Raise (Exception "offline")) (fun _ => "csv"%string)
           (fun _ => Raise (Exception "parse"))
           "^DJI" "max" "text"
           {| files := {[ cache_file "^DJI" "max" := "text"%string ]};
              downloads := []; reports := [] |}).
  apply lookup_singleton_eq.
Defined.

(** ** One turn of the loop of main *)

Lemma select_Close_shape (df df' : DataFrame) :
  select_Close df = Ok df' -> exists close, df' = price_frame (index df) close.
Proof.
  unfold select_Close. destruct (getitem df "Close") as [close|]; [|discriminate].
  cbn [mbind result_bind]. intros H. injection H as <-. now exists close.
Qed.

Lemma analysis_file_not_plot_file (today ticker : string) :
  plot_file today ticker <> analysis_file today ticker.
Proof.
  unfold plot_file, analysis_file. intros H.
  do 4 apply append_inj_r in H. discriminate H.
Qed.

Section MainProperties.

Variable history : string -> string -> result DataFrame.
Variable to_csv : DataFrame -> string.
Variable read_csv : string -> result DataFrame.
Variable savefig : list date -> list float64 -> string -> string.
Variable today : string.

Let fetch := fetch_historical_price_data history to_csv read_csv.
Let turn := main_ticker history to_csv read_csv savefig today.

Lemma fetch_footprint (ticker period : string) (w : world) :
  reports (fetch ticker period w).1 = reports w
  /\ (downloads (fetch ticker period w).1 = downloads w
      \/ downloads (fetch ticker period w).1 = downloads w ++ [(ticker, period)])
  /\ dom (files w) ⊆ dom (files (fetch ticker period w).1)
  /\ forall df : DataFrame,
       (fetch ticker period w).2 = Ok df ->
       exists close, df = price_frame (index df) close.
Proof.
  unfold fetch, fetch_historical_price_data.
  destruct (files w !! cache_file ticker period) as [text|].
  - cbn [fst snd]. repeat split; auto.
    intros df H. destruct (read_csv text) as [df0|]; [|discriminate].
    cbn [mbind result_bind] in H.
    destruct (select_Close_shape _ _ H) as [close ->]. now exists close.
  - destruct (history ticker period) as [df0|e]; cbn [fst snd].
    + repeat split; auto.
      * cbn [files write_file log_download]. rewrite dom_insert_L. set_solver.
      * intros df H. destruct (select_Close_shape _ _ H) as [close ->].
        now exists close.
    + repeat split; auto. intros df H. discriminate H.
Qed.

Lemma turn_fetch_fails (ticker symbol : string) (w w1 : world) (e : exn) :
  fetch symbol "max" w = (w1, Raise e) -> turn ticker symbol w = (w1, Raise e).
Proof.
  unfold turn, main_ticker. fold fetch. intros ->. reflexivity.
Qed.

(** The turn once the prices are fetched: no step before [df.index[0]]
    can fail on a frame of the one column Close. *)
Lemma turn_fetched (ticker symbol : string) (w w1 : world)
  (dates : list date) (close : list float64) (df : DataFrame)
  (zs : list float64) :
  fetch symbol "max" w = (w1, Ok (price_frame dates close)) ->
  main_z_scores (price_frame dates close) = Ok df ->
  getitem df "Z-Score" = Ok zs ->
  turn ticker symbol w
  = let w2 :=
      write_file (plot_file today ticker) (savefig (index df) zs ticker)
        (write_file (analysis_file today ticker) (to_csv df) w1) in
    match index df with
    | [] => (w2, Raise (Exception "IndexError"))
    | _ :: _ => (print_report ticker (compute_distribution_stats zs) w2, Ok tt)
    end.
Proof.
  intros Hf Hm Hz. unfold turn, main_ticker. fold fetch. rewrite Hf.
  cbn [mbind result_bind]. rewrite Hm. unfold plot_z_scores. rewrite Hz.
  cbv zeta. destruct (index df); reflexivity.
Qed.

Lemma main_z_scores_fetched (dates : list date) (close : list float64) :
  exists (df : DataFrame) (zs : list float64),
    main_z_scores (price_frame dates close) = Ok df
    /\ getitem df "Z-Score" = Ok zs.
Proof.
  rewrite main_z_scores_price_frame. cbv zeta.
  eexists. eexists. split; reflexivity.
Qed.

(** A ticker with fewer than two prices makes the turn raise IndexError:
    its one return is NaN and [dropna] leaves no row. *)
Theorem main_ticker_few_prices (ticker symbol : string) (w w1 : world)
  (dates : list date) (close : list float64) :
  fetch symbol "max" w = (w1, Ok (price_frame dates close)) ->
  (length close <= 1)%nat ->
  exists w' : world,
    turn ticker symbol w = (w', Raise (Exception "IndexError"))
    /\ is_Some (files w' !! analysis_file today ticker)
    /\ is_Some (files w' !! plot_file today ticker)
    /\ reports w' = reports w1.
Proof.
  intros Hf Hlen.
  destruct (main_z_scores_fetched dates close) as (df & zs & Hm & Hz).
  rewrite (turn_fetched ticker symbol w w1 dates close df zs Hf Hm Hz).
  cbv zeta.
  assert (Hi : index df = []).
  { rewrite main_z_scores_price_frame in Hm. cbv zeta in Hm.
    injection Hm as <-. cbn [index].
    destruct close as [|c [|c' close]]; [| |cbn in Hlen; lia].
    - reflexivity.
    - destruct dates as [|d dates]; [reflexivity|].
      unfold row_mask, series_sub, np_log, shift1.
      cbn [index columns foldr snd map length take zip_with repeat notna isnan].
      destruct (np_log1 c); cbn [fsub fadd fneg isnan negb andb];
        rewrite andb_false_r; reflexivity. }
  rewrite Hi. eexists. split; [reflexivity|].
  cbn [files write_file reports].
  rewrite lookup_insert_ne by apply analysis_file_not_plot_file.
  rewrite !lookup_insert_eq. repeat split; eauto.
Qed.

Lemma cache_file_not_output (symbol period ticker : string) :
  cache_file symbol period <> plot_file today ticker
  /\ cache_file symbol period <> analysis_file today ticker.
Proof.
  unfold cache_file, plot_file, analysis_file.
  split; intros H; discriminate H.
Qed.

(** A turn on at least two positive prices succeeds: it writes the
    analysis file and the plot of the z-scores, downloads nothing beyond
    the fetch, and prints the report of those z-scores under the
    ticker's name. *)
Theorem main_ticker_success (ticker symbol : string) (w w1 : world)
  (dates : list date) (p : list R) :
  fetch symbol "max" w = (w1, Ok (price_frame dates (map Fin p))) ->
  length dates = length p -> (2 <= length p)%nat -> positive_prices p ->
  exists (w' : world) (df : DataFrame),
    turn ticker symbol w = (w', Ok tt)
    /\ main_z_scores (price_frame dates (map Fin p)) = Ok df
    /\ files w'
       = <[plot_file today ticker :=
             savefig (tail dates) (normalized (log_returns p)) ticker]>
           (<[analysis_file today ticker := to_csv df]> (files w1))
    /\ downloads w' = downloads w1
    /\ reports w'
       = reports w1
         ++ [(ticker, compute_distribution_stats (normalized (log_returns p)))].
Proof.
  intros Hf Hd Hn Hp.
  pose proof (main_z_scores_positive dates p Hd Hn Hp) as Hm.
  eexists. eexists. split; [|split; [exact Hm|]].
  - rewrite (turn_fetched ticker symbol w w1 _ _ _ _ Hf Hm eq_refl).
    cbv zeta. cbn [index].
    destruct dates as [|d [|d' dates]];
      [cbn in Hd; lia|cbn in Hd; lia|reflexivity].
  - destruct dates as [|d [|d' dates]];
      [cbn in Hd; lia|cbn in Hd; lia|].
    repeat split.
Qed.

(** Running the turn again.  After a first turn that downloaded the
    prices, a second turn on the same day downloads nothing, leaves
    every file as it is, and prints the same report once more. *)
Theorem main_ticker_again (ticker symbol : string) (w : world)
  (df0 : DataFrame) (dates : list date) (p : list R) :
  files w !! cache_file symbol "max" = None ->
  history symbol "max" = Ok df0 ->
  read_csv (to_csv df0) = Ok df0 ->
  select_Close df0 = Ok (price_frame dates (map Fin p)) ->
  length dates = length p -> (2 <= length p)%nat -> positive_prices p ->
  exists w1 w2 : world,
    turn ticker symbol w = (w1, Ok tt)
    /\ turn ticker symbol w1 = (w2, Ok tt)
    /\ downloads w1 = downloads w ++ [(symbol, "max"%string)]
    /\ downloads w2 = downloads w1
    /\ files w2 = files w1
    /\ reports w2
       = reports w ++
         [(ticker, compute_distribution_stats (normalized (log_returns p)));
          (ticker, compute_distribution_stats (normalized (log_returns p)))].
Proof.
  intros Hmiss Hh Hrt Hsel Hd Hn Hp.
  destruct (fetch_then_cached history to_csv read_csv symbol "max" df0 w
              Hmiss Hh Hrt) as (wa & Hf1 & Hfiles & Hdl & _).
  fold fetch in Hf1. rewrite Hsel in Hf1.
  destruct (main_ticker_success ticker symbol w wa dates p Hf1 Hd Hn Hp)
    as (w1 & df & Ht1 & Hm & Hfiles1 & Hdl1 & Hrep1).
  destruct (cache_file_not_output symbol "max" ticker) as [Hc1 Hc2].
  assert (Hhit : files w1 !! cache_file symbol "max" = Some (to_csv df0)).
  { rewrite Hfiles1, !lookup_insert_ne by congruence.
    rewrite Hfiles. apply lookup_insert_eq. }
  assert (Hf2 : fetch symbol "max" w1 = (w1, Ok (price_frame dates (map Fin p)))).
  { unfold fetch, fetch_historical_price_data. rewrite Hhit, Hrt.
    cbn [mbind result_bind]. now rewrite Hsel. }
  destruct (main_ticker_success ticker symbol w1 w1 dates p Hf2 Hd Hn Hp)
    as (w2 & df' & Ht2 & Hm' & Hfiles2 & Hdl2 & Hrep2).
  assert (df' = df) by congruence. subst df'.
  exists w1, w2. split; [exact Ht1|]. split; [exact Ht2|].
  split; [congruence|]. split; [exact Hdl2|]. split.
  - rewrite Hfiles2. rewrite (insert_id (files w1) (analysis_file today ticker)).
    + apply insert_id. rewrite Hfiles1. apply lookup_insert_eq.
    + rewrite Hfiles1.
      rewrite lookup_insert_ne by apply analysis_file_not_plot_file.
      apply lookup_insert_eq.
  - rewrite Hrep2, Hrep1.
    assert (Hr : reports wa = reports w).
    { pose proof (fetch_footprint symbol "max" w) as (Hr & _).
      rewrite Hf1 in Hr. exact Hr. }
    rewrite Hr, <- app_assoc. reflexivity.
Qed.

(** ** main *)

Lemma turn_footprint (ticker symbol : string) (w : world) :
  (downloads (turn ticker symbol w).1 = downloads w
   \/ downloads (turn ticker symbol w).1 = downloads w ++ [(symbol, "max"%string)])
  /\ match (turn ticker symbol w).2 with
     | Ok _ => exists rows, reports (turn ticker symbol w).1
                            = reports w ++ [(ticker, rows)]
     | Raise _ => reports (turn ticker symbol w).1 = reports w
     end.
Proof.
  destruct (fetch_footprint symbol "max" w) as (Hrep & Hdl & _ & Hshape).
  destruct (fetch symbol "max" w) as [w1 [df0|e0]] eqn:Hf;
    cbn [fst snd] in Hrep, Hdl, Hshape.
  - destruct (Hshape df0 eq_refl) as [close Hdf0].
    set (dates := index df0) in *. clearbody dates. subst df0.
    destruct (main_z_scores_fetched dates close) as (df & zs & Hm & Hz).
    rewrite (turn_fetched ticker symbol w w1 dates close df zs Hf Hm Hz).
    cbv zeta. destruct (index df); cbn [fst snd downloads reports write_file print_report].
    + split; [exact Hdl|exact Hrep].
    + split; [exact Hdl|]. eexists. now rewrite Hrep.
  - rewrite (turn_fetch_fails ticker symbol w w1 e0 Hf). cbn [fst snd].
    split; [exact Hdl|exact Hrep].
Qed.

Lemma main_loop_footprint (items : list (string * string)) (w : world) :
  exists (dl : list (string * string)) (rp : list (string * list stats_row)),
    downloads (main_loop history to_csv read_csv savefig today items w).1
    = downloads w ++ dl
    /\ sublist dl (map (fun i => (i.2, "max"%string)) items)
    /\ reports (main_loop history to_csv read_csv savefig today items w).1
       = reports w ++ rp
    /\ map fst rp `prefix_of` map fst items
    /\ ((main_loop history to_csv read_csv savefig today items w).2 = Ok tt ->
        map fst rp = map fst items).
Proof.
  revert w. induction items as [|[ticker symbol] items IH]; intros w.
  - exists [], []. cbn [main_loop fst snd map]. rewrite !app_nil_r.
    split; [reflexivity|]. split; [apply sublist_nil|].
    split; [reflexivity|]. split; [apply prefix_nil|]. reflexivity.
  - cbn [main_loop]. fold turn.
    destruct (turn_footprint ticker symbol w) as [Hdl Hrep].
    destruct (turn ticker symbol w) as [w1 [[]|e]] eqn:Ht; cbn [fst snd] in *.
    + destruct Hrep as [rows Hrep].
      destruct (IH w1) as (dl & rp & Hd & Hs & Hr & Hp & Hok).
      destruct Hdl as [Hdl|Hdl].
      * exists dl, ((ticker, rows) :: rp). rewrite Hd, Hr, Hdl, Hrep.
        cbn [map fst snd]. rewrite <- app_assoc.
        split; [reflexivity|]. split; [apply sublist_cons, Hs|].
        split; [reflexivity|]. split; [apply prefix_cons, Hp|].
        intros H. now rewrite (Hok H).
      * exists ((symbol, "max"%string) :: dl), ((ticker, rows) :: rp).
        rewrite Hd, Hr, Hdl, Hrep. cbn [map fst snd]. rewrite <- !app_assoc.
        split; [reflexivity|]. split; [apply sublist_skip, Hs|].
        split; [reflexivity|]. split; [apply prefix_cons, Hp|].
        intros H. now rewrite (Hok H).
    + destruct Hdl as [Hdl|Hdl].
      * exists [], []. rewrite Hdl, Hrep, !app_nil_r. cbn [map fst snd].
        split; [reflexivity|]. split; [apply sublist_nil_l|].
        split; [reflexivity|]. split; [apply prefix_nil|]. discriminate.
      * exists [(symbol, "max"%string)], []. rewrite Hdl, Hrep, app_nil_r.
        cbn [map fst snd].
        split; [reflexivity|]. split; [apply sublist_skip, sublist_nil_l|].
        split; [reflexivity|]. split; [apply prefix_nil|]. discriminate.
Qed.

(** What [main] asks and prints.  It downloads only symbols of
    [TICKERS], with the period "max", each at most once and in the order
    of the dict; it prints the reports in that order, under the ticker
    names, stopping at the first ticker that fails; when it returns, all
    four reports are printed. *)
Theorem main_footprint (w : world) :
  exists (dl : list (string * string)) (rp : list (string * list stats_row)),
    downloads (main history to_csv read_csv savefig today w).1
    = downloads w ++ dl
    /\ sublist dl [("^DJI", "max"); ("^GSPC", "max");
                   ("^IXIC", "max"); ("^NSEI", "max")]%string
    /\ reports (main history to_csv read_csv savefig today w).1
       = reports w ++ rp
    /\ map fst rp `prefix_of` ["DJIA"; "SP500"; "NASDAQ"; "NIFTY50"]%string
    /\ ((main history to_csv read_csv savefig today w).2 = Ok tt ->
        map fst rp = ["DJIA"; "SP500"; "NASDAQ"; "NIFTY50"]%string).
Proof. exact (main_loop_footprint TICKERS_items w). Qed.

End MainProperties.

Lemma main_ticker_few_prices_witness :
  exists w' : world,
    main_ticker
      (fun _ _ => Ok (price_frame [0]%Z [Fin 1])) (fun _ => "csv"%string)
      (fun _ => Raise (Exception "parse")) (fun _ _ _ => "png"%string)
      "2025-11-08" "DJIA" "^DJI" empty_world
    = (w', Raise (Exception "IndexError"))
    /\ is_Some (files w' !! analysis_file "2025-11-08" "DJIA")
    /\ is_Some (files w' !! plot_file "2025-11-08" "DJIA")
    /\ reports w'
       = reports (write_file (cache_file "^DJI" "max") "csv"
                    (log_download "^DJI" "max" empty_world)).
Proof.
  apply (main_ticker_few_prices
           (fun _ _ => Ok (price_frame [0]%Z [Fin 1])) (fun _ => "csv"%string)
           (fun _ => Raise (Exception "parse")) (fun _ _ _ => "png"%string)
           "2025-11-08" "DJIA" "^DJI" empty_world
           (write_file (cache_file "^DJI" "max") "csv"
              (log_download "^DJI" "max" empty_world))
           [0]%Z [Fin 1]).
  - reflexivity.
  - simpl. lia.
Defined.

Lemma main_ticker_success_witness :
  exists (w' : world) (df : DataFrame),
    main_ticker
      (fun _ _ => Ok (price_frame [0; 1; 2]%Z (map Fin [1; exp 1; exp 3])))
      (fun _ => "csv"%string) (fun _ => Raise (Exception "parse"))
      (fun _ _ _ => "png"%string) "2025-11-08" "DJIA" "^DJI" empty_world
    = (w', Ok tt)
    /\ main_z_scores (price_frame [0; 1; 2]%Z (map Fin [1; exp 1; exp 3])) = Ok df
    /\ files w'
       = <[plot_file "2025-11-08" "DJIA" := "png"%string]>
           (<[analysis_file "2025-11-08" "DJIA" := "csv"%string]>
              (files (write_file (cache_file "^DJI" "max") "csv"
                        (log_download "^DJI" "max" empty_world))))
    /\ downloads w'
       = downloads (write_file (cache_file "^DJI" "max") "csv"
                      (log_download "^DJI" "max" empty_world))
    /\ reports w'
       = reports (write_file (cache_file "^DJI" "max") "csv"
                    (log_download "^DJI" "max" empty_world))
         ++ [("DJIA"%string,
              compute_distribution_stats
                (normalized (log_returns [1; exp 1; exp 3])))].
Proof.
  apply (main_ticker_success
           (fun _ _ => Ok (price_frame [0; 1; 2]%Z (map Fin [1; exp 1; exp 3])))
           (fun _ => "csv"%string) (fun _ => Raise (Exception "parse"))
           (fun _ _ _ => "png"%string) "2025-11-08" "DJIA" "^DJI" empty_world
           (write_file (cache_file "^DJI" "max") "csv"
              (log_download "^DJI" "max" empty_world))
           [0; 1; 2]%Z [1; exp 1; exp 3]).
  - reflexivity.
  - reflexivity.
  - simpl. lia.
  - exact exp_1_2_positive.
Defined.

Lemma main_ticker_again_witness :
  exists w1 w2 : world,
    main_ticker
      (fun _ _ => Ok (price_frame [0; 1; 2]%Z (map Fin [1; exp 1; exp 3])))
      (fun _ => "csv"%string)
      (fun _ => Ok (price_frame [0; 1; 2]%Z (map Fin [1; exp 1; exp 3])))
      (fun _ _ _ => "png"%string) "2025-11-08" "DJIA" "^DJI" empty_world
    = (w1, Ok tt)
    /\ main_ticker
         (fun _ _ => Ok (price_frame [0; 1; 2]%Z (map Fin [1; exp 1; exp 3])))
         (fun _ => "csv"%string)
         (fun _ => Ok (price_frame [0; 1; 2]%Z (map Fin [1; exp 1; exp 3])))
         (fun _ _ _ => "png"%string) "2025-11-08" "DJIA" "^DJI" w1
       = (w2, Ok tt)
    /\ downloads w1 = downloads empty_world ++ [("^DJI"%string, "max"%string)]
    /\ downloads w2 = downloads w1
    /\ files w2 = files w1
    /\ reports w2
       = reports empty_world ++
         [("DJIA"%string,
           compute_distribution_stats (normalized (log_returns [1; exp 1; exp 3])));
          ("DJIA"%string,
           compute_distribution_stats (normalized (log_returns [1; exp 1; exp 3])))].
Proof.
  apply (main_ticker_again
           (fun _ _ => Ok (price_frame [0; 1; 2]%Z (map Fin [1; exp 1; exp 3])))
           (fun _ => "csv"%string)
           (fun _ => Ok (price_frame [0; 1; 2]%Z (map Fin [1; exp 1; exp 3])))
           (fun _ _ _ => "png"%string) "2025-11-08" "DJIA" "^DJI" empty_world
           (price_frame [0; 1; 2]%Z (map Fin [1; exp 1; exp 3]))
           [0; 1; 2]%Z [1; exp 1; exp 3]).
  - reflexivity.
  - reflexivity.
  - reflexivity.
  - reflexivity.
  - reflexivity.
  - simpl. lia.
  - exact exp_1_2_positive.
Defined.
